(** * Brave search server ([server/search.py])

    A shallow embedding of the rate gate, the three upstream calls, the
    local-search orchestration, the two result formatters and the two tool
    entry points, followed by the properties the specification states about
    them.

    Conventions of the embedding:
    - Python [int] is [Z]; Python [float] is the kernel's binary64 [float];
      Python [str] is [string]; a [dict] with string keys is a [gmap string _].
    - A [TypedDict] is a record.  A key that the code reads with [.get] may be
      absent; a key declared [Optional[...]] may also hold [None].
    - Module-level mutable state ([request_count]) and the outside world (the
      wall clock, the HTTP client) are threaded explicitly: a computation is a
      function from [World] to an outcome and a new [World], and an exception
      keeps the state changes made before it was raised. *)

From Stdlib Require Import ZArith Lia PrimFloat Uint63 String Ascii List.
From stdpp Require Import gmap strings pretty.
Import ListNotations.

Local Open Scope Z_scope.

(** ** Python runtime *)

(** The exceptions the program can see.  All of them derive from [Exception];
    [exn_str] is [str(e)].  [OtherException] stands for whatever the HTTP
    collaborator raises (connection, DNS, timeout, JSON decoding). *)
Inductive exn : Type :=
| ValueError (msg : string)
| TypeError (msg : string)
| OtherException (msg : string).

Definition exn_str (e : exn) : string :=
  match e with
  | ValueError msg => msg
  | TypeError msg => msg
  | OtherException msg => msg
  end.

(** Result of running a piece of code: a value, or a raised exception. *)
Inductive outcome (A : Type) : Type :=
| Ok (a : A)
| Raise (e : exn).
Arguments Ok {A} a.
Arguments Raise {A} e.

(** A dictionary key whose declared type is [Optional[A]]: the key can be
    missing, hold [None], or hold a value. *)
Inductive field (A : Type) : Type :=
| Missing
| PyNone
| Present (a : A).
Arguments Missing {A}.
Arguments PyNone {A}.
Arguments Present {A} a.

(** The values that get interpolated into f-strings. *)
Inductive pyval : Type :=
| VNone
| VStr (s : string)
| VInt (z : Z)
| VFloat (f : float).

(** The line feed character, written [\n] in the source. *)
Definition nl : string := String "010"%char EmptyString.

(** [sep.join(l)] *)
Fixpoint str_join (sep : string) (l : list string) : string :=
  match l with
  | [] => EmptyString
  | x :: rest =>
      match rest with
      | [] => x
      | _ :: _ => x +:+ sep +:+ str_join sep rest
      end
  end.

(** [str(z)] for an [int]: decimal digits, with a leading minus sign. *)
Definition str_int (z : Z) : string := pretty z.

(** Truth value of a [str]. *)
Definition str_truthy (s : string) : bool :=
  match s with
  | EmptyString => false
  | String _ _ => true
  end.

(** Truth value of a [list]. *)
Definition list_truthy {A : Type} (l : list A) : bool :=
  match l with
  | [] => false
  | _ :: _ => true
  end.

(** Truth value of a [dict]. *)
Definition dict_truthy {A : Type} (d : gmap string A) : bool :=
  list_truthy (map_to_list d).

(** ** Rate gate *)

Module RateGate.

(** [RATE_LIMIT] *)
Record RateLimit : Type := {
  per_second : Z;
  per_month : Z
}.

Definition RATE_LIMIT : RateLimit :=
  {| per_second := 1; per_month := 15000 |}.

(** [request_count] *)
Record RequestCount : Type := {
  second : Z;
  month : Z;
  last_reset : float
}.

(** [now - request_count["last_reset"] > 1] *)
Definition window_elapsed (now : float) (request_count : RequestCount) : bool :=
  (1 <? now - last_reset request_count)%float.

(** The first [if] of [check_rate_limit]: start a new one-second window. *)
Definition adjust_window (now : float) (request_count : RequestCount) : RequestCount :=
  if window_elapsed now request_count
  then {| second := 0; month := month request_count; last_reset := now |}
  else request_count.

(** The test of the second [if] of [check_rate_limit]. *)
Definition over_limit (lim : RateLimit) (request_count : RequestCount) : bool :=
  (second request_count >=? per_second lim) || (month request_count >=? per_month lim).

(** [check_rate_limit()], with the reading [now] of [time.time()] and the
    module-level dictionaries made explicit.  The returned state is the one
    the dictionary holds afterwards, also when the call raises. *)
Definition check_rate_limit (lim : RateLimit) (now : float) (request_count : RequestCount)
  : outcome unit * RequestCount :=
  let request_count := adjust_window now request_count in
  if over_limit lim request_count
  then (Raise (ValueError "Rate limit exceeded"), request_count)
  else (Ok tt,
        {| second := second request_count + 1;
           month := month request_count + 1;
           last_reset := last_reset request_count |}).

(** A run of calls to [check_rate_limit], one per clock reading, that stops at
    the first rejected call: the state after the calls when all were
    admitted. *)
Fixpoint admit_all (lim : RateLimit) (times : list float) (request_count : RequestCount)
  : option RequestCount :=
  match times with
  | [] => Some request_count
  | now :: later =>
      match check_rate_limit lim now request_count with
      | (Ok _, request_count') => admit_all lim later request_count'
      | (Raise _, _) => None
      end
  end.

End RateGate.

(** ** Upstream data: the [TypedDict] declarations *)

(** [BraveWebResult] ([total=False]); the keys [language], [published] and
    [rank] are never read and are left out. *)
Record BraveWebResult : Type := {
  title : option string;
  description : option string;
  url : option string
}.

(** [BraveWebResponse] ([total=False]): both keys are [Optional] dictionaries
    from strings to lists. *)
Record BraveWebResponse : Type := {
  web : field (gmap string (list BraveWebResult));
  locations : field (gmap string (list (gmap string string)))
}.

(** [BraveLocationAddress] ([total=False]) *)
Record BraveLocationAddress : Type := {
  streetAddress : field string;
  addressLocality : field string;
  addressRegion : field string;
  postalCode : field string
}.

(** [BraveLocationRating] ([total=False]) *)
Record BraveLocationRating : Type := {
  ratingValue : field float;
  ratingCount : field Z
}.

(** [BraveLocation]; [id] is read by subscript, every other key with [.get].
    [coordinates] is never read and is left out. *)
Record BraveLocation : Type := {
  loc_id : string;
  name : option string;
  address : option BraveLocationAddress;
  phone : field string;
  rating : field BraveLocationRating;
  openingHours : field (list string);
  priceRange : field string
}.

(** [BravePoiResponse] *)
Record BravePoiResponse : Type := {
  results : option (list BraveLocation)
}.

(** [BraveDescription] *)
Record BraveDescription : Type := {
  descriptions : option (gmap string string)
}.

(** The dictionaries [perform_web_search] builds from each upstream entry. *)
Record WebResult : Type := {
  res_title : string;
  res_description : string;
  res_url : string
}.

(** [k in d] for an [Optional] key of a [TypedDict]. *)
Definition field_present {A : Type} (f : field A) : bool :=
  match f with
  | Missing => false
  | PyNone | Present _ => true
  end.

(** Truth value of an address dictionary: it has at least one key. *)
Definition address_truthy (a : BraveLocationAddress) : bool :=
  field_present (streetAddress a) || field_present (addressLocality a)
  || field_present (addressRegion a) || field_present (postalCode a).

(** Truth value of a rating dictionary. *)
Definition rating_truthy (r : BraveLocationRating) : bool :=
  field_present (ratingValue r) || field_present (ratingCount r).

(** ** Result formatting *)

(** [if d.get(k): parts.append(d[k])] *)
Definition append_if_truthy (parts : list string) (f : field string) : list string :=
  match f with
  | Present s => if str_truthy s then parts ++ [s] else parts
  | Missing | PyNone => parts
  end.

(** The list [address_parts] that [format_local_results] builds for a POI. *)
Definition address_parts_of (poi : BraveLocation) : list string :=
  let address_parts := [] in
  match address poi with
  | Some a =>
      if address_truthy a then
        let address_parts := append_if_truthy address_parts (streetAddress a) in
        let address_parts := append_if_truthy address_parts (addressLocality a) in
        let address_parts := append_if_truthy address_parts (addressRegion a) in
        let address_parts := append_if_truthy address_parts (postalCode a) in
        address_parts
      else address_parts
  | None => address_parts
  end.

(** [rating_value] and [rating_count] after the [if poi.get('rating')] block. *)
Definition rating_of (poi : BraveLocation) : pyval * pyval :=
  let rating_value := VStr "N/A" in
  let rating_count := VInt 0 in
  match rating poi with
  | Present r =>
      if rating_truthy r then
        let rating_value :=
          match ratingValue r with
          | Present v => VFloat v
          | Missing | PyNone => rating_value
          end in
        let rating_count :=
          match ratingCount r with
          | Present c => VInt c
          | Missing | PyNone => rating_count
          end in
        (rating_value, rating_count)
      else (rating_value, rating_count)
  | Missing | PyNone => (rating_value, rating_count)
  end.

(** [hours] after the [if poi.get('openingHours')] block. *)
Definition hours_of (poi : BraveLocation) : string :=
  let hours := "N/A" in
  match openingHours poi with
  | Present l => if list_truthy l then str_join ", " l else hours
  | Missing | PyNone => hours
  end.

(** [description] after the [if desc_data.get('descriptions') and ...] block. *)
Definition description_of (desc_data : BraveDescription) (poi : BraveLocation) : string :=
  let description := "No description available" in
  match descriptions desc_data with
  | Some d =>
      if dict_truthy d then
        match d !! loc_id poi with
        | Some text => text
        | None => description
        end
      else description
  | None => description
  end.

(** [d.get(k, 'N/A')] for an [Optional[str]] key. *)
Definition get_or_na (f : field string) : pyval :=
  match f with
  | Missing => VStr "N/A"
  | PyNone => VNone
  | Present s => VStr s
  end.

Section Formatting.

(** [repr] of a [float], the shortest decimal that reads back as the same
    binary64 value, is the runtime's and is taken as a parameter. *)
Variable float_repr : float -> string.

(** [str(v)], which is what a replacement field of an f-string produces. *)
Definition py_str (v : pyval) : string :=
  match v with
  | VNone => "None"
  | VStr s => s
  | VInt z => str_int z
  | VFloat f => float_repr f
  end.

(** The f-string that renders one POI. *)
Definition format_poi (desc_data : BraveDescription) (poi : BraveLocation) : string :=
  let address_parts := address_parts_of poi in
  let address := if list_truthy address_parts then str_join ", " address_parts else "N/A" in
  let '(rating_value, rating_count) := rating_of poi in
  let hours := hours_of poi in
  let description := description_of desc_data poi in
  "Name: " +:+ py_str (VStr (default "N/A" (name poi))) +:+ nl +:+
  "Address: " +:+ address +:+ nl +:+
  "Phone: " +:+ py_str (get_or_na (phone poi)) +:+ nl +:+
  "Rating: " +:+ py_str rating_value +:+ " (" +:+ py_str rating_count +:+ " reviews)" +:+ nl +:+
  "Price Range: " +:+ py_str (get_or_na (priceRange poi)) +:+ nl +:+
  "Hours: " +:+ hours +:+ nl +:+
  "Description: " +:+ description.

(** [format_local_results(pois_data, desc_data)] *)
Definition format_local_results (pois_data : BravePoiResponse) (desc_data : BraveDescription)
  : string :=
  match results pois_data with
  | Some pois =>
      if list_truthy pois then
        let formatted_results :=
          fold_left (fun formatted_results poi => formatted_results ++ [format_poi desc_data poi])
                    pois [] in
        str_join (nl +:+ "---" +:+ nl) formatted_results
      else "No local results found"
  | None => "No local results found"
  end.

End Formatting.

(** The loop of [perform_web_search] that copies the upstream entries.  With
    [data['web']] holding [None] the test ['results' in data['web']] raises. *)
Definition extract_web_results (data : BraveWebResponse) : outcome (list WebResult) :=
  let results := [] in
  match web data with
  | Missing => Ok results
  | PyNone => Raise (TypeError "argument of type 'NoneType' is not iterable")
  | Present w =>
      match w !! "results" with
      | Some entries =>
          Ok (fold_left
                (fun results result =>
                   results ++ [ {| res_title := default EmptyString (title result);
                                   res_description := default EmptyString (description result);
                                   res_url := default EmptyString (url result) |} ])
                entries results)
      | None => Ok results
      end
  end.

(** The [return] expression of [perform_web_search]. *)
Definition format_web_results (results : list WebResult) : string :=
  str_join (nl +:+ nl)
    (map (fun r => "Title: " +:+ res_title r +:+ nl +:+
                   "Description: " +:+ res_description r +:+ nl +:+
                   "URL: " +:+ res_url r)
         results).

(** [result.get('id')] when it is truthy. *)
Definition truthy_id (result : gmap string string) : option string :=
  match result !! "id" with
  | Some s => if str_truthy s then Some s else None
  | None => None
  end.

(** [location_ids] as [perform_local_search] computes it from the first
    response. *)
Definition extract_location_ids (web_data : BraveWebResponse) : list string :=
  let location_ids := [] in
  match locations web_data with
  | Present locs =>
      if dict_truthy locs then
        match locs !! "results" with
        | Some entries => if list_truthy entries then omap truthy_id entries else location_ids
        | None => location_ids
        end
      else location_ids
  | Missing | PyNone => location_ids
  end.

(** ** The process and its collaborators *)

(** What [client.get(url, params=..., headers=...)] is called with. *)
Record Request : Type := {
  req_url : string;
  req_params : list (string * pyval);
  req_headers : list (string * string)
}.

(** What [client.get] returns: the attributes the code reads, and the result
    of [response.json()], which may raise. *)
Record Response (A : Type) : Type := {
  status_code : Z;
  reason_phrase : string;
  text : string;
  json : outcome A
}.
Arguments status_code {A} _.
Arguments reason_phrase {A} _.
Arguments text {A} _.
Arguments json {A} _.

(** What the module is loaded with: the API token, the limits, the wall clock
    and the upstream API.  The [k]-th call of [time.time()] reads
    [time_time k].  An HTTP call is answered, or fails, as a function of all
    requests made so far, the current one last; the three endpoints are
    typed by what their callers declare [response.json()] to be. *)
Record Env : Type := {
  BRAVE_API_KEY : string;
  limits : RateGate.RateLimit;
  time_time : nat -> float;
  get_web : list Request -> outcome (Response BraveWebResponse);
  get_pois : list Request -> outcome (Response BravePoiResponse);
  get_descriptions : list Request -> outcome (Response BraveDescription)
}.

(** The state of a running server: the module-level [request_count], how many
    times the clock has been read, and the requests sent upstream so far. *)
Record World : Type := {
  request_count : RateGate.RequestCount;
  clock_reads : nat;
  sent : list Request
}.

(** A computation: it ends with a value or a raised exception, and in either
    case leaves a new [World]. *)
Definition M (A : Type) : Type := World -> outcome A * World.

Definition ret {A : Type} (a : A) : M A := fun w => (Ok a, w).

Definition raise {A : Type} (e : exn) : M A := fun w => (Raise e, w).

Definition bind {A B : Type} (m : M A) (k : A -> M B) : M B :=
  fun w =>
    match m w with
    | (Ok a, w') => k a w'
    | (Raise e, w') => (Raise e, w')
    end.

Notation "x <- m ;; k" := (bind m (fun x => k))
  (at level 100, m at next level, right associativity).

(** [try: return await m / except Exception as e: return handler(e)] *)
Definition try_except {A : Type} (m : M A) (handler : exn -> A) : M A :=
  fun w =>
    match m w with
    | (Ok a, w') => (Ok a, w')
    | (Raise e, w') => (Ok (handler e), w')
    end.

(** [await asyncio.gather(m1, m2)] under the schedule in which the first
    coroutine finishes before the second starts.  Both coroutines run, also
    when the first one raises; the exception of the first one that failed is
    the one propagated. *)
Definition gather {A B : Type} (m1 : M A) (m2 : M B) : M (A * B) :=
  fun w =>
    let '(r1, w1) := m1 w in
    let '(r2, w2) := m2 w1 in
    (match r1, r2 with
     | Ok a, Ok b => Ok (a, b)
     | Raise e, _ => Raise e
     | Ok _, Raise e => Raise e
     end, w2).

(** The [headers] dictionary every call builds. *)
Definition headers_of (api_key : string) : list (string * string) :=
  [ ("Accept", "application/json");
    ("Accept-Encoding", "gzip");
    ("X-Subscription-Token", api_key) ].

(** The [params] dictionary of [perform_web_search]. *)
Definition web_search_params (query : string) (count offset : Z) : list (string * pyval) :=
  [ ("q", VStr query);
    ("count", VInt (Z.min count 20));
    ("offset", VInt offset) ].

(** The [params] dictionary of [perform_local_search]. *)
Definition local_search_params (query : string) (count : Z) : list (string * pyval) :=
  [ ("q", VStr query);
    ("search_lang", VStr "en");
    ("result_filter", VStr "locations");
    ("count", VInt (Z.min count 20)) ].

(** [valid_ids] and the [params] list of the two lookups by id. *)
Definition ids_params (ids : list string) : list (string * pyval) :=
  let valid_ids := List.filter str_truthy ids in
  let params := [] in
  fold_left (fun params id => params ++ [("ids", VStr id)]) valid_ids params.

(** The message of the [ValueError] raised on a status other than 200. *)
Definition api_error_message {A : Type} (response : Response A) : string :=
  "Brave API error: " +:+ str_int (status_code response) +:+ " " +:+
  reason_phrase response +:+ nl +:+ text response.

Section Server.

Variable float_repr : float -> string.
Variable env : Env.

(** [check_rate_limit()] as the search functions call it: one reading of the
    clock, one update of [request_count]. *)
Definition rate_gate : M unit :=
  fun w =>
    let now := time_time env (clock_reads w) in
    let '(r, request_count') :=
      RateGate.check_rate_limit (limits env) now (request_count w) in
    (r, {| request_count := request_count';
           clock_reads := S (clock_reads w);
           sent := sent w |}).

(** [await client.get(...)] against one of the endpoints. *)
Definition client_get {A : Type} (endpoint : list Request -> outcome (Response A))
  (request : Request) : M (Response A) :=
  fun w =>
    let history := sent w ++ [request] in
    (endpoint history,
     {| request_count := request_count w;
        clock_reads := clock_reads w;
        sent := history |}).

(** The body of each [async with mcp.http_client() as client] block: send the
    request, raise on a status other than 200, decode the body. *)
Definition fetch_json {A : Type} (endpoint : list Request -> outcome (Response A))
  (request : Request) : M A :=
  response <- client_get endpoint request ;;
  if negb (status_code response =? 200)
  then raise (ValueError (api_error_message response))
  else match json response with
       | Ok data => ret data
       | Raise e => raise e
       end.

(** The request [perform_web_search] sends. *)
Definition web_search_request (query : string) (count offset : Z) : Request :=
  {| req_url := "https://api.search.brave.com/res/v1/web/search";
     req_params := web_search_params query count offset;
     req_headers := headers_of (BRAVE_API_KEY env) |}.

(** [perform_web_search(query, count, offset)] *)
Definition perform_web_search (query : string) (count offset : Z) : M string :=
  _ <- rate_gate ;;
  data <- fetch_json (get_web env) (web_search_request query count offset) ;;
  match extract_web_results data with
  | Ok results => ret (format_web_results results)
  | Raise e => raise e
  end.

(** [get_pois_data(ids)] *)
Definition get_pois_data (ids : list string) : M BravePoiResponse :=
  _ <- rate_gate ;;
  fetch_json (get_pois env)
    {| req_url := "https://api.search.brave.com/res/v1/local/pois";
       req_params := ids_params ids;
       req_headers := headers_of (BRAVE_API_KEY env) |}.

(** [get_descriptions_data(ids)] *)
Definition get_descriptions_data (ids : list string) : M BraveDescription :=
  _ <- rate_gate ;;
  fetch_json (get_descriptions env)
    {| req_url := "https://api.search.brave.com/res/v1/local/descriptions";
       req_params := ids_params ids;
       req_headers := headers_of (BRAVE_API_KEY env) |}.

(** The first request of [perform_local_search]. *)
Definition local_search_request (query : string) (count : Z) : Request :=
  {| req_url := "https://api.search.brave.com/res/v1/web/search";
     req_params := local_search_params query count;
     req_headers := headers_of (BRAVE_API_KEY env) |}.

(** [perform_local_search(query, count)]; the fallback calls
    [perform_web_search(query, count)], whose [offset] defaults to 0. *)
Definition perform_local_search (query : string) (count : Z) : M string :=
  _ <- rate_gate ;;
  web_data <- fetch_json (get_web env) (local_search_request query count) ;;
  let location_ids := extract_location_ids web_data in
  if negb (list_truthy location_ids)
  then perform_web_search query count 0
  else
    gathered <- gather (get_pois_data location_ids) (get_descriptions_data location_ids) ;;
    let '(pois_data, descriptions_data) := gathered in
    ret (format_local_results float_repr pois_data descriptions_data).

(** The tool [brave_web_search] *)
Definition brave_web_search (query : string) (count offset : Z) : M string :=
  try_except (perform_web_search query count offset)
             (fun e => "Error: " +:+ exn_str e).

(** The tool [brave_local_search] *)
Definition brave_local_search (query : string) (count : Z) : M string :=
  try_except (perform_local_search query count)
             (fun e => "Error: " +:+ exn_str e).

End Server.

(** ** The formatters as the specification words them

    Second definitions, written from the specification's sentences and not
    from the code; the properties below compare them with the code. *)

(** An address part as the specification sees it: a string, empty when the
    part is missing. *)
Definition spec_address_part (f : field string) : string :=
  match f with
  | Present s => s
  | Missing | PyNone => EmptyString
  end.

(** "Address parts included only if non-empty, joined with ", " preserving
    order street, locality, region, postal", or "N/A". *)
Definition spec_address (poi : BraveLocation) : string :=
  let parts :=
    match address poi with
    | Some a =>
        List.filter str_truthy
          (map spec_address_part
               [streetAddress a; addressLocality a; addressRegion a; postalCode a])
    | None => []
    end in
  match parts with
  | [] => "N/A"
  | _ :: _ => str_join ", " parts
  end.

(** "<count or 0>" *)
Definition spec_rating_count (poi : BraveLocation) : Z :=
  match rating poi with
  | Present r =>
      match ratingCount r with
      | Present c => c
      | Missing | PyNone => 0
      end
  | Missing | PyNone => 0
  end.

(** "the mapped description, or "No description available" when the POI's id
    has no entry in the map" *)
Definition spec_description (desc_data : BraveDescription) (poi : BraveLocation) : string :=
  match descriptions desc_data with
  | Some d =>
      match d !! loc_id poi with
      | Some text => text
      | None => "No description available"
      end
  | None => "No description available"
  end.

(** "list of WebResult extracted from response's web-results array; empty list
    if the field is absent", "missing fields default to empty string". *)
Definition spec_web_results (data : BraveWebResponse) : list WebResult :=
  match web data with
  | Present w =>
      match w !! "results" with
      | Some entries =>
          map (fun entry =>
                 {| res_title := default EmptyString (title entry);
                    res_description := default EmptyString (description entry);
                    res_url := default EmptyString (url entry) |})
              entries
      | None => []
      end
  | Missing | PyNone => []
  end.

(** "each entry rendered as three labeled lines (Title/Description/URL) in
    that fixed order", entries joined "with blank-line separators". *)
Definition spec_format_web (entries : list WebResult) : string :=
  str_join (nl +:+ nl)
    (map (fun entry =>
            str_join nl [ "Title: " +:+ res_title entry;
                          "Description: " +:+ res_description entry;
                          "URL: " +:+ res_url entry ])
         entries).

Section SpecFormatting.

Variable float_repr : float -> string.

(** "<value or N/A>" *)
Definition spec_rating_value (poi : BraveLocation) : string :=
  match rating poi with
  | Present r =>
      match ratingValue r with
      | Present v => float_repr v
      | Missing | PyNone => "N/A"
      end
  | Missing | PyNone => "N/A"
  end.

(** The fixed block of seven lines.  The specification's sentence about the
    block fixes the content of the Address, Rating and Description lines; the
    text after the other four labels is the one the code computes. *)
Definition spec_local_block (desc_data : BraveDescription) (poi : BraveLocation) : string :=
  str_join nl
    [ "Name: " +:+ default "N/A" (name poi);
      "Address: " +:+ spec_address poi;
      "Phone: " +:+ py_str float_repr (get_or_na (phone poi));
      "Rating: " +:+ spec_rating_value poi +:+ " (" +:+
        str_int (spec_rating_count poi) +:+ " reviews)";
      "Price Range: " +:+ py_str float_repr (get_or_na (priceRange poi));
      "Hours: " +:+ hours_of poi;
      "Description: " +:+ spec_description desc_data poi ].

(** "for each POI, in input order, render a fixed block", "join blocks with a
    separator line of three dashes". *)
Definition spec_format_local (desc_data : BraveDescription) (pois : list BraveLocation)
  : string :=
  str_join (nl +:+ "---" +:+ nl) (map (spec_local_block desc_data) pois).

(** What the specification asks of the block of a POI with missing fields:
    the block is seven labelled lines, and the text after the label of a
    missing field is "N/A" (for a missing rating, "N/A" with 0 reviews). *)
Definition renders_missing_as_na (poi : BraveLocation) (block : string) : Prop :=
  exists name_text address_text phone_text rating_text price_text hours_text description_text,
    block = str_join nl [ "Name: " +:+ name_text;
                          "Address: " +:+ address_text;
                          "Phone: " +:+ phone_text;
                          "Rating: " +:+ rating_text;
                          "Price Range: " +:+ price_text;
                          "Hours: " +:+ hours_text;
                          "Description: " +:+ description_text ] /\
    (name poi = None -> name_text = "N/A") /\
    (address poi = None -> address_text = "N/A") /\
    (phone poi = Missing -> phone_text = "N/A") /\
    (rating poi = Missing -> rating_text = "N/A (0 reviews)") /\
    (priceRange poi = Missing -> price_text = "N/A") /\
    (openingHours poi = Missing -> hours_text = "N/A").

End SpecFormatting.

(** ** Sample data and collaborators

    The sample responses of [tests/test_search.py] and a few collaborators to
    run the code against. *)

(** [SAMPLE_WEB_RESPONSE] *)
Definition SAMPLE_WEB_RESPONSE : BraveWebResponse :=
  {| web := Present {[ "results" :=
       [ {| title := Some "Sample Title 1";
            description := Some "Sample Description 1";
            url := Some "https://example.com/1" |};
         {| title := Some "Sample Title 2";
            description := Some "Sample Description 2";
            url := Some "https://example.com/2" |} ] ]};
     locations := Missing |}.

(** [SAMPLE_POIS_RESPONSE] *)
Definition SAMPLE_POIS_RESPONSE : BravePoiResponse :=
  {| results := Some
       [ {| loc_id := "loc1";
            name := Some "Restaurant 1";
            address := Some {| streetAddress := Present "123 Main St";
                               addressLocality := Present "Anytown";
                               addressRegion := Present "CA";
                               postalCode := Present "12345" |};
            phone := Present "+1-555-123-4567";
            rating := Present {| ratingValue := Present 4.5%float;
                                 ratingCount := Present 100 |};
            openingHours := Present ["Mon-Fri 9am-5pm"; "Sat 10am-3pm"];
            priceRange := Present "$$" |};
         {| loc_id := "loc2";
            name := Some "Restaurant 2";
            address := Some {| streetAddress := Present "456 Oak Ave";
                               addressLocality := Present "Othertown";
                               addressRegion := Present "NY";
                               postalCode := Present "67890" |};
            phone := Present "+1-555-987-6543";
            rating := Present {| ratingValue := Present 4%float;
                                 ratingCount := Present 75 |};
            openingHours := Present ["Mon-Sun 8am-10pm"];
            priceRange := Present "$$$" |} ] |}.

(** [SAMPLE_DESCRIPTIONS_RESPONSE] *)
Definition SAMPLE_DESCRIPTIONS_RESPONSE : BraveDescription :=
  {| descriptions := Some
       {[ "loc1" := "A great place to eat with a variety of dishes.";
          "loc2" := "Upscale dining with excellent service." ]} |}.

(** A POI that has nothing but its id. *)
Definition bare_poi : BraveLocation :=
  {| loc_id := "loc9"; name := None; address := None; phone := Missing;
     rating := Missing; openingHours := Missing; priceRange := Missing |}.

(** [repr] on the two floats of the samples. *)
Definition sample_float_repr (f : float) : string :=
  if (f =? 4.5)%float then "4.5"
  else if (f =? 4)%float then "4.0"
  else "nan".

(** A response with status 200 whose body decodes to [data]. *)
Definition ok_response {A : Type} (data : A) : Response A :=
  {| status_code := 200; reason_phrase := "OK"; text := EmptyString; json := Ok data |}.

(** A clock that is read at 10 s, then 12 s, then 14 s and so on. *)
Definition sample_clock (k : nat) : float :=
  (10 + 2 * PrimFloat.of_uint63 (Uint63.of_Z (Z.of_nat k)))%float.

(** The configured limits, and an upstream that answers every web search
    with [body] and the two lookups by id with the sample responses. *)
Definition sample_env (body : BraveWebResponse) : Env :=
  {| BRAVE_API_KEY := "test_api_key";
     limits := RateGate.RATE_LIMIT;
     time_time := sample_clock;
     get_web := fun _ => Ok (ok_response body);
     get_pois := fun _ => Ok (ok_response SAMPLE_POIS_RESPONSE);
     get_descriptions := fun _ => Ok (ok_response SAMPLE_DESCRIPTIONS_RESPONSE) |}.

(** A server that has just been started, at 9 s. *)
Definition sample_world : World :=
  {| request_count := {| RateGate.second := 0; RateGate.month := 0;
                         RateGate.last_reset := 9%float |};
     clock_reads := 0;
     sent := [] |}.

(** The body [{"web": null}]. *)
Definition null_web_response : BraveWebResponse :=
  {| web := PyNone; locations := Missing |}.

(** ** Module start-up *)

(** The statements the module runs when it is loaded, up to the creation of
    [request_count]: read [BRAVE_API_KEY] from the environment, raise when it
    is unset or empty, and start the counters at the current time.  The result
    is the token and the initial [request_count]. *)
Definition module_init (environ : gmap string string) (now : float)
  : outcome (string * RateGate.RequestCount) :=
  let BRAVE_API_KEY := environ !! "BRAVE_API_KEY" in
  match BRAVE_API_KEY with
  | Some key =>
      if negb (str_truthy key)
      then Raise (ValueError "Error: BRAVE_API_KEY environment variable is required")
      else Ok (key, {| RateGate.second := 0; RateGate.month := 0;
                       RateGate.last_reset := now |})
  | None => Raise (ValueError "Error: BRAVE_API_KEY environment variable is required")
  end.

(** ** Runs, for stating properties of sequences of calls *)

Definition is_ok {A : Type} (r : outcome A) : bool :=
  match r with
  | Ok _ => true
  | Raise _ => false
  end.

(** Calls to [check_rate_limit] at the given clock readings, one after the
    other whether admitted or not: the outcome of each call and the state
    after the last one. *)
Fixpoint run_calls (lim : RateGate.RateLimit) (times : list float)
  (request_count : RateGate.RequestCount)
  : list (outcome unit) * RateGate.RequestCount :=
  match times with
  | [] => ([], request_count)
  | now :: later =>
      let '(r, request_count') := RateGate.check_rate_limit lim now request_count in
      let '(rs, request_count'') := run_calls lim later request_count' in
      (r :: rs, request_count'')
  end.

(** How many of the calls were admitted. *)
Definition admitted (outcomes : list (outcome unit)) : nat :=
  length (List.filter is_ok outcomes).

(** Between [w] and [w'] exactly the requests [later] were sent, in that
    order, and the per-month count grew by their number. *)
Definition spends (w w' : World) (later : list Request) : Prop :=
  sent w' = sent w ++ later /\
  RateGate.month (request_count w') =
    RateGate.month (request_count w) + Z.of_nat (length later).

(** A request to one of the three endpoints that carries the three headers
    with the configured token. *)
Definition known_request (env : Env) (request : Request) : Prop :=
  req_headers request = headers_of (BRAVE_API_KEY env) /\
  (req_url request = "https://api.search.brave.com/res/v1/web/search" \/
   req_url request = "https://api.search.brave.com/res/v1/local/pois" \/
   req_url request = "https://api.search.brave.com/res/v1/local/descriptions").

(** The request of a lookup by id, once the ids are known to be non-empty. *)
Definition lookup_request (env : Env) (endpoint_url : string) (ids : list string) : Request :=
  {| req_url := endpoint_url;
     req_params := map (fun id => ("ids", VStr id)) ids;
     req_headers := headers_of (BRAVE_API_KEY env) |}.

(** What the code does with keys that hold [None] or an empty string: the
    text after the labels of the block of [poi]. *)
Definition renders_present_fields (poi : BraveLocation) (block : string) : Prop :=
  exists name_text address_text phone_text rating_text price_text hours_text description_text,
    block = str_join nl [ "Name: " +:+ name_text;
                          "Address: " +:+ address_text;
                          "Phone: " +:+ phone_text;
                          "Rating: " +:+ rating_text;
                          "Price Range: " +:+ price_text;
                          "Hours: " +:+ hours_text;
                          "Description: " +:+ description_text ] /\
    (forall s, name poi = Some s -> name_text = s) /\
    (forall s, phone poi = Present s -> phone_text = s) /\
    (forall s, priceRange poi = Present s -> price_text = s) /\
    (phone poi = PyNone -> phone_text = "None") /\
    (priceRange poi = PyNone -> price_text = "None") /\
    (rating poi = PyNone -> rating_text = "N/A (0 reviews)") /\
    (openingHours poi = PyNone \/ openingHours poi = Present [] -> hours_text = "N/A").

(** [SAMPLE_LOCAL_RESPONSE] *)
Definition SAMPLE_LOCAL_RESPONSE : BraveWebResponse :=
  {| web := Missing;
     locations := Present {[ "results" :=
       [ ({[ "id" := "loc1"; "title" := "Location 1" ]} : gmap string string);
         {[ "id" := "loc2"; "title" := "Location 2" ]} ] ]} |}.

(** The sample upstream behind a clock that stands still at 10 s. *)
Definition frozen_clock_env (body : BraveWebResponse) : Env :=
  {| BRAVE_API_KEY := "test_api_key";
     limits := RateGate.RATE_LIMIT;
     time_time := fun _ => 10%float;
     get_web := fun _ => Ok (ok_response body);
     get_pois := fun _ => Ok (ok_response SAMPLE_POIS_RESPONSE);
     get_descriptions := fun _ => Ok (ok_response SAMPLE_DESCRIPTIONS_RESPONSE) |}.

(** The sample upstream with the pois endpoint answering 500. *)
Definition failing_pois_env : Env :=
  {| BRAVE_API_KEY := "test_api_key";
     limits := RateGate.RATE_LIMIT;
     time_time := sample_clock;
     get_web := fun _ => Ok (ok_response SAMPLE_LOCAL_RESPONSE);
     get_pois := fun _ => Ok {| status_code := 500; reason_phrase := "Error";
                                text := "{}"; json := Ok SAMPLE_POIS_RESPONSE |};
     get_descriptions := fun _ => Ok (ok_response SAMPLE_DESCRIPTIONS_RESPONSE) |}.

(** * Properties *)

(** ** Rate gate *)

Module RateGateFacts.
Import RateGate.

Lemma over_limit_spec (lim : RateLimit) (rc : RequestCount) :
  over_limit lim rc = true <->
  per_second lim <= second rc \/ per_month lim <= month rc.
Proof.
  unfold over_limit. rewrite orb_true_iff, !Z.geb_le. reflexivity.
Qed.

Lemma adjust_window_month (now : float) (rc : RequestCount) :
  month (adjust_window now rc) = month rc.
Proof. unfold adjust_window. destruct (window_elapsed now rc); reflexivity. Qed.

Lemma adjust_window_same (now : float) (rc : RequestCount) :
  window_elapsed now rc = false -> adjust_window now rc = rc.
Proof. unfold adjust_window. intros ->. reflexivity. Qed.

Lemma adjust_window_second_nonneg (now : float) (rc : RequestCount) :
  0 <= second rc -> 0 <= second (adjust_window now rc).
Proof.
  unfold adjust_window. destruct (window_elapsed now rc); simpl; lia.
Qed.

(** The window test only looks at the start of the window. *)
Lemma window_elapsed_ext (now : float) (rc rc' : RequestCount) :
  last_reset rc' = last_reset rc -> window_elapsed now rc' = window_elapsed now rc.
Proof. unfold window_elapsed. intros ->. reflexivity. Qed.

(** An admitted call, seen from the state after the window adjustment. *)
Lemma check_rate_limit_ok (lim : RateLimit) (now : float) (rc rc' : RequestCount) :
  check_rate_limit lim now rc = (Ok tt, rc') ->
  second rc' = second (adjust_window now rc) + 1 /\
  month rc' = month rc + 1 /\
  last_reset rc' = last_reset (adjust_window now rc).
Proof.
  unfold check_rate_limit.
  destruct (over_limit lim (adjust_window now rc)); [discriminate|].
  intros [= <-]. simpl. rewrite adjust_window_month. auto.
Qed.

(** Calls that all fall in the window that is open are counted one by one. *)
Lemma admit_all_same_window (lim : RateLimit) (times : list float) :
  forall rc rc' : RequestCount,
    Forall (fun t => window_elapsed t rc = false) times ->
    admit_all lim times rc = Some rc' ->
    second rc' = second rc + Z.of_nat (length times) /\
    last_reset rc' = last_reset rc.
Proof.
  induction times as [|t times IH]; intros rc rc' Hwin Hrun.
  - simpl in Hrun. injection Hrun as <-. simpl. split; [lia | reflexivity].
  - apply Forall_cons_iff in Hwin as [Ht Hwin].
    simpl in Hrun.
    destruct (check_rate_limit lim t rc) as [[[]|e] rc1] eqn:Hstep; [|discriminate].
    apply check_rate_limit_ok in Hstep as (Hs & _ & Hl).
    rewrite (adjust_window_same _ _ Ht) in Hs, Hl.
    destruct (IH rc1 rc') as [Hs' Hl']; [|assumption|].
    + eapply Forall_impl; [exact Hwin|].
      intros t' Ht'. simpl in Ht'. rewrite (window_elapsed_ext t' rc rc1 Hl). exact Ht'.
    + split; [|congruence].
      rewrite Hs', Hs. cbn [length]. lia.
Qed.

(** C1. A call of [check_rate_limit] raises "Rate limit exceeded" exactly when,
    after the window adjustment, the per-second count has reached the
    per-second limit or the per-month count has reached the per-month limit;
    otherwise it succeeds and both counts grow by exactly one.  In particular,
    starting from a per-second count that is not negative, when as many calls
    as the per-second limit allows have been admitted and all of them but
    possibly the first, as well as the next call, fall in the same one-second
    window, the next call is rejected. *)
Theorem check_rate_limit_admits_up_to_limit (lim : RateLimit) :
  (forall (now : float) (rc : RequestCount),
      fst (check_rate_limit lim now rc) = Raise (ValueError "Rate limit exceeded") <->
      per_second lim <= second (adjust_window now rc) \/
      per_month lim <= month (adjust_window now rc)) /\
  (forall (now : float) (rc : RequestCount),
      ~ (per_second lim <= second (adjust_window now rc) \/
         per_month lim <= month (adjust_window now rc)) ->
      check_rate_limit lim now rc =
      (Ok tt, {| second := second (adjust_window now rc) + 1;
                 month := month (adjust_window now rc) + 1;
                 last_reset := last_reset (adjust_window now rc) |})) /\
  (forall (rc rcN : RequestCount) (first : float) (later : list float) (next : float),
      0 <= second rc ->
      Z.of_nat (length (first :: later)) = per_second lim ->
      admit_all lim (first :: later) rc = Some rcN ->
      Forall (fun t => window_elapsed t (adjust_window first rc) = false) (later ++ [next]) ->
      check_rate_limit lim next rcN = (Raise (ValueError "Rate limit exceeded"), rcN)).
Proof.
  split; [|split].
  - intros now rc. unfold check_rate_limit. rewrite <- over_limit_spec.
    destruct (over_limit lim (adjust_window now rc)); simpl; split; congruence.
  - intros now rc Hfree. unfold check_rate_limit. rewrite <- over_limit_spec in Hfree.
    destruct (over_limit lim (adjust_window now rc)); [exfalso; auto | reflexivity].
  - intros rc rcN first later next Hnonneg Hlen Hrun Hwin.
    apply Forall_app in Hwin as [Hlater Hnext].
    apply Forall_cons_iff in Hnext as [Hnext _].
    cbn [admit_all] in Hrun.
    destruct (check_rate_limit lim first rc) as [[[]|e] rc1] eqn:Hstep; [|discriminate].
    apply check_rate_limit_ok in Hstep as (Hs & _ & Hl).
    pose proof (adjust_window_second_nonneg first rc Hnonneg) as Hpos.
    destruct (admit_all_same_window lim later rc1 rcN) as [HsN HlN]; [|assumption|].
    + eapply Forall_impl; [exact Hlater|].
      intros t Ht. simpl in Ht.
      rewrite (window_elapsed_ext t (adjust_window first rc) rc1 Hl). exact Ht.
    + assert (Hsame : window_elapsed next rcN = false).
      { rewrite (window_elapsed_ext next (adjust_window first rc) rcN); [exact Hnext|].
        congruence. }
      unfold check_rate_limit. rewrite (adjust_window_same _ _ Hsame).
      assert (Hover : over_limit lim rcN = true).
      { apply over_limit_spec. left. cbn [length] in Hlen. lia. }
      rewrite Hover. reflexivity.
Qed.

(** C1, on the configured limits: one call half a second into a fresh window
    is admitted, the next one a quarter of a second later is rejected. *)
Lemma check_rate_limit_admits_up_to_limit_witness :
  check_rate_limit RATE_LIMIT 0.75%float
    {| second := 1; month := 1; last_reset := 0%float |} =
  (Raise (ValueError "Rate limit exceeded"),
   {| second := 1; month := 1; last_reset := 0%float |}).
Proof.
  apply (proj2 (proj2 (check_rate_limit_admits_up_to_limit RATE_LIMIT))
           {| second := 0; month := 0; last_reset := 0%float |}
           {| second := 1; month := 1; last_reset := 0%float |}
           0.5%float [] 0.75%float).
  - simpl. lia.
  - reflexivity.
  - reflexivity.
  - repeat constructor.
Defined.

(** The window is anchored at [last_reset] and not at the first admitted call:
    a call 0.75 s into a window and a call 0.75 s later, which is more than a
    second after the start of that window, are both admitted. *)
Example two_calls_across_a_window_boundary :
  admit_all RATE_LIMIT [0.75%float; 1.5%float]
    {| second := 0; month := 0; last_reset := 0%float |} =
  Some {| second := 1; month := 2; last_reset := 1.5%float |}.
Proof. reflexivity. Qed.

(** C2, as stated, fails: exactly one second after the start of the window
    (so "at least one second" holds) with the per-month count below its limit,
    the per-second count is not reset and the call is rejected. *)
Lemma no_reset_at_exactly_one_second :
  (1 <=? 1 - last_reset {| second := 1; month := 0; last_reset := 0 |})%float = true /\
  month {| second := 1; month := 0; last_reset := 0%float |} < per_month RATE_LIMIT /\
  check_rate_limit RATE_LIMIT 1%float {| second := 1; month := 0; last_reset := 0%float |} =
  (Raise (ValueError "Rate limit exceeded"),
   {| second := 1; month := 0; last_reset := 0%float |}).
Proof. repeat split. Qed.

(** C2, amended.  Whenever the clock reading minus the start of the window, as
    the code computes it, is greater than 1, the call restarts the window at
    the reading and counts from 0: afterwards the per-second count is 1 when
    the call was admitted and 0 when it was rejected.  Consequently, with a
    per-second limit of at least 1 and the per-month count below its limit,
    the call is admitted whatever the per-second count was. *)
Theorem window_restarts_after_more_than_one_second
  (lim : RateLimit) (now : float) (rc : RequestCount) :
  (1 <? now - last_reset rc)%float = true ->
  last_reset (snd (check_rate_limit lim now rc)) = now /\
  second (snd (check_rate_limit lim now rc)) =
    match fst (check_rate_limit lim now rc) with Ok _ => 1 | Raise _ => 0 end /\
  (0 < per_second lim -> month rc < per_month lim ->
   check_rate_limit lim now rc =
   (Ok tt, {| second := 1; month := month rc + 1; last_reset := now |})).
Proof.
  intros Helapsed.
  assert (Hadj : adjust_window now rc =
                 {| second := 0; month := month rc; last_reset := now |}).
  { unfold adjust_window, window_elapsed. rewrite Helapsed. reflexivity. }
  unfold check_rate_limit. rewrite Hadj.
  destruct (over_limit lim _) eqn:Hover; simpl.
  - repeat split; try reflexivity.
    intros Hsec Hmonth. apply over_limit_spec in Hover. simpl in Hover. lia.
  - repeat split; reflexivity.
Qed.

Lemma window_restarts_after_more_than_one_second_witness :
  check_rate_limit RATE_LIMIT 2.5%float {| second := 1; month := 7; last_reset := 1%float |} =
  (Ok tt, {| second := 1; month := 8; last_reset := 2.5%float |}).
Proof.
  apply (proj2 (proj2 (window_restarts_after_more_than_one_second RATE_LIMIT 2.5%float
                         {| second := 1; month := 7; last_reset := 1%float |} eq_refl))).
  - reflexivity.
  - reflexivity.
Defined.

(** C10. A rejected call leaves the state exactly as the window adjustment
    left it: the per-month count is the one before the call, and the
    per-second count is the one before the call, or 0 when the window was
    restarted; without a restart nothing changes at all. *)
Theorem rejected_call_consumes_no_quota
  (lim : RateLimit) (now : float) (rc rc' : RequestCount) (e : exn) :
  check_rate_limit lim now rc = (Raise e, rc') ->
  rc' = adjust_window now rc /\
  month rc' = month rc /\
  second rc' = (if window_elapsed now rc then 0 else second rc) /\
  (window_elapsed now rc = false -> rc' = rc).
Proof.
  unfold check_rate_limit.
  destruct (over_limit lim (adjust_window now rc)); [|discriminate].
  intros [= _ <-]. unfold adjust_window.
  destruct (window_elapsed now rc); simpl; repeat split; congruence.
Qed.

Lemma rejected_call_consumes_no_quota_witness :
  {| second := 0; month := 15000; last_reset := 9%float |} =
    adjust_window 9%float {| second := 1; month := 15000; last_reset := 2%float |} /\
  15000 = 15000 /\
  0 = (if window_elapsed 9%float {| second := 1; month := 15000; last_reset := 2%float |}
       then 0 else 1) /\
  (window_elapsed 9%float {| second := 1; month := 15000; last_reset := 2%float |} = false ->
   {| second := 0; month := 15000; last_reset := 9%float |} =
   {| second := 1; month := 15000; last_reset := 2%float |}).
Proof.
  apply (rejected_call_consumes_no_quota RATE_LIMIT 9%float
           {| second := 1; month := 15000; last_reset := 2%float |}
           {| second := 0; month := 15000; last_reset := 9%float |}
           (ValueError "Rate limit exceeded")).
  reflexivity.
Defined.

End RateGateFacts.

(** ** Python runtime facts *)

Lemma str_app_assoc (a b c : string) : (a +:+ b) +:+ c = a +:+ (b +:+ c).
Proof.
  induction a as [|ch a IH]; [reflexivity|].
  change (String ch ((a +:+ b) +:+ c) = String ch (a +:+ (b +:+ c))).
  f_equal. exact IH.
Qed.

(** A loop that appends one element per iteration computes a [map]. *)
Lemma fold_left_snoc {A B : Type} (f : A -> B) (l : list A) :
  forall acc : list B,
    fold_left (fun acc x => acc ++ [f x]) l acc = acc ++ map f l.
Proof.
  induction l as [|x l IH]; intros acc; simpl.
  - rewrite app_nil_r. reflexivity.
  - rewrite IH, <- app_assoc. reflexivity.
Qed.

Lemma dict_truthy_false {A : Type} (d : gmap string A) :
  dict_truthy d = false -> d = ∅.
Proof.
  unfold dict_truthy. intros H. apply map_to_list_empty_iff.
  destruct (map_to_list d); [reflexivity | discriminate].
Qed.

Lemma field_present_false {A : Type} (f : field A) :
  field_present f = false -> f = Missing.
Proof. destruct f; simpl; congruence. Qed.

(** ** Result formatting *)

Lemma append_if_truthy_spec (parts : list string) (f : field string) :
  append_if_truthy parts f = parts ++ List.filter str_truthy [spec_address_part f].
Proof.
  destruct f as [| |s]; simpl; try (rewrite app_nil_r; reflexivity).
  destruct (str_truthy s); [reflexivity | rewrite app_nil_r; reflexivity].
Qed.

Lemma address_parts_of_spec (poi : BraveLocation) :
  address_parts_of poi =
  match address poi with
  | Some a =>
      List.filter str_truthy
        (map spec_address_part
             [streetAddress a; addressLocality a; addressRegion a; postalCode a])
  | None => []
  end.
Proof.
  unfold address_parts_of. destruct (address poi) as [a|]; [|reflexivity].
  destruct (address_truthy a) eqn:Htruthy.
  - rewrite !append_if_truthy_spec. simpl.
    repeat (destruct (str_truthy (spec_address_part _))); reflexivity.
  - unfold address_truthy in Htruthy.
    repeat (apply orb_false_iff in Htruthy as [Htruthy ?]).
    repeat match goal with
           | H : field_present _ = false |- _ => apply field_present_false in H; rewrite H
           end.
    reflexivity.
Qed.

Lemma address_text_spec (poi : BraveLocation) :
  (if list_truthy (address_parts_of poi)
   then str_join ", " (address_parts_of poi) else "N/A") = spec_address poi.
Proof.
  unfold spec_address. rewrite address_parts_of_spec.
  destruct (match address poi with Some _ => _ | None => _ end); reflexivity.
Qed.

Lemma description_of_spec (desc_data : BraveDescription) (poi : BraveLocation) :
  description_of desc_data poi = spec_description desc_data poi.
Proof.
  unfold description_of, spec_description.
  destruct (descriptions desc_data) as [d|]; [|reflexivity].
  destruct (dict_truthy d) eqn:Htruthy; [reflexivity|].
  apply dict_truthy_false in Htruthy. subst d. rewrite lookup_empty. reflexivity.
Qed.

Section FormatterFacts.

Variable float_repr : float -> string.

Lemma rating_of_spec (poi : BraveLocation) :
  py_str float_repr (fst (rating_of poi)) = spec_rating_value float_repr poi /\
  py_str float_repr (snd (rating_of poi)) = str_int (spec_rating_count poi).
Proof.
  unfold rating_of, spec_rating_value, spec_rating_count.
  destruct (rating poi) as [| |r]; try (split; reflexivity).
  destruct (rating_truthy r) eqn:Htruthy.
  - destruct (ratingValue r), (ratingCount r); split; reflexivity.
  - unfold rating_truthy in Htruthy. apply orb_false_iff in Htruthy as [Hv Hc].
    apply field_present_false in Hv, Hc. rewrite Hv, Hc. split; reflexivity.
Qed.

(** The f-string of the code is the block of seven lines. *)
Lemma format_poi_spec (desc_data : BraveDescription) (poi : BraveLocation) :
  format_poi float_repr desc_data poi = spec_local_block float_repr desc_data poi.
Proof.
  unfold format_poi, spec_local_block.
  destruct (rating_of_spec poi) as [Hvalue Hcount].
  destruct (rating_of poi) as [rating_value rating_count]. simpl in Hvalue, Hcount.
  rewrite address_text_spec, description_of_spec, Hvalue, Hcount.
  cbn [str_join py_str]. rewrite !str_app_assoc. reflexivity.
Qed.

Lemma format_local_results_blocks (desc_data : BraveDescription)
  (poi : BraveLocation) (pois : list BraveLocation) :
  format_local_results float_repr {| results := Some (poi :: pois) |} desc_data =
  str_join (nl +:+ "---" +:+ nl) (map (format_poi float_repr desc_data) (poi :: pois)).
Proof.
  unfold format_local_results. cbn [results list_truthy].
  rewrite (fold_left_snoc (format_poi float_repr desc_data)). reflexivity.
Qed.

(** C6. For a non-empty POI list and any description map, the output is one
    block per POI, in input order, joined by a line of three dashes; a block
    is the seven lines Name, Address, Phone, Rating, Price Range, Hours and
    Description, where the address is the non-empty parts in the order street,
    locality, region, postal code joined by ", " (or "N/A"), the rating is
    "<value or N/A> (<count or 0> reviews)", and the description is the entry
    of the map for the POI's id (or "No description available"). *)
Theorem format_local_results_renders_blocks (desc_data : BraveDescription)
  (poi : BraveLocation) (pois : list BraveLocation) :
  format_local_results float_repr {| results := Some (poi :: pois) |} desc_data =
  spec_format_local float_repr desc_data (poi :: pois).
Proof.
  rewrite format_local_results_blocks. unfold spec_format_local.
  f_equal. apply map_ext. intros p. apply format_poi_spec.
Qed.

End FormatterFacts.

Section MissingFields.

Variable float_repr : float -> string.

Lemma format_poi_missing (desc_data : BraveDescription) (poi : BraveLocation) :
  renders_missing_as_na poi (format_poi float_repr desc_data poi).
Proof.
  rewrite format_poi_spec. unfold spec_local_block, renders_missing_as_na.
  exists (default "N/A" (name poi)), (spec_address poi),
         (py_str float_repr (get_or_na (phone poi))),
         (spec_rating_value float_repr poi +:+ " (" +:+
          str_int (spec_rating_count poi) +:+ " reviews)"),
         (py_str float_repr (get_or_na (priceRange poi))),
         (hours_of poi), (spec_description desc_data poi).
  split; [reflexivity|].
  repeat split.
  - intros ->. reflexivity.
  - unfold spec_address. intros ->. reflexivity.
  - intros ->. reflexivity.
  - unfold spec_rating_value, spec_rating_count. intros ->. reflexivity.
  - intros ->. reflexivity.
  - unfold hours_of. intros ->. reflexivity.
Qed.

Lemma Forall2_map_self {A B : Type} (R : A -> B -> Prop) (f : A -> B) (l : list A) :
  (forall x, R x (f x)) -> Forall2 R l (map f l).
Proof. intros H. induction l; simpl; constructor; auto. Qed.

(** C7. The output for a non-empty POI list is a list of blocks, one per POI
    in order, joined by the dash line, and in the block of a POI each of the
    fields name, address, phone, rating, priceRange and openingHours that is
    missing shows "N/A" after the label of its line. *)
Theorem missing_fields_render_as_na (desc_data : BraveDescription)
  (poi : BraveLocation) (pois : list BraveLocation) :
  exists blocks : list string,
    format_local_results float_repr {| results := Some (poi :: pois) |} desc_data =
    str_join (nl +:+ "---" +:+ nl) blocks /\
    Forall2 renders_missing_as_na (poi :: pois) blocks.
Proof.
  exists (map (format_poi float_repr desc_data) (poi :: pois)). split.
  - apply format_local_results_blocks.
  - apply Forall2_map_self. intros p. apply format_poi_missing.
Qed.

(** C9. With an empty POI list, or no [results] key at all, the output is
    exactly "No local results found", whatever the description map. *)
Theorem format_local_results_empty (desc_data : BraveDescription) :
  format_local_results float_repr {| results := Some [] |} desc_data =
    "No local results found" /\
  format_local_results float_repr {| results := None |} desc_data =
    "No local results found".
Proof. split; reflexivity. Qed.

End MissingFields.

(** The sample POIs of the tests, rendered. *)
Example format_local_results_sample :
  format_local_results sample_float_repr SAMPLE_POIS_RESPONSE SAMPLE_DESCRIPTIONS_RESPONSE =
  str_join nl
    [ "Name: Restaurant 1";
      "Address: 123 Main St, Anytown, CA, 12345";
      "Phone: +1-555-123-4567";
      "Rating: 4.5 (100 reviews)";
      "Price Range: $$";
      "Hours: Mon-Fri 9am-5pm, Sat 10am-3pm";
      "Description: A great place to eat with a variety of dishes.";
      "---";
      "Name: Restaurant 2";
      "Address: 456 Oak Ave, Othertown, NY, 67890";
      "Phone: +1-555-987-6543";
      "Rating: 4.0 (75 reviews)";
      "Price Range: $$$";
      "Hours: Mon-Sun 8am-10pm";
      "Description: Upscale dining with excellent service." ].
Proof. vm_compute. reflexivity. Qed.

(** A POI with nothing but its id, rendered. *)
Example format_local_results_bare :
  format_local_results sample_float_repr
    {| results := Some [bare_poi] |} {| descriptions := None |} =
  str_join nl
    [ "Name: N/A"; "Address: N/A"; "Phone: N/A"; "Rating: N/A (0 reviews)";
      "Price Range: N/A"; "Hours: N/A"; "Description: No description available" ].
Proof. vm_compute. reflexivity. Qed.

(** ** Computations *)

Lemma bind_ok {A B : Type} (m : M A) (k : A -> M B) (w w' : World) (a : A) :
  m w = (Ok a, w') -> bind m k w = k a w'.
Proof. unfold bind. intros ->. reflexivity. Qed.

Lemma bind_raise {A B : Type} (m : M A) (k : A -> M B) (w w' : World) (e : exn) :
  m w = (Raise e, w') -> bind m k w = (Raise e, w').
Proof. unfold bind. intros ->. reflexivity. Qed.

Lemma try_except_ok {A : Type} (m : M A) (handler : exn -> A) (w : World) :
  exists a : A, fst (try_except m handler w) = Ok a.
Proof. unfold try_except. destruct (m w) as [[a|e] w']; simpl; eauto. Qed.

(** ** The search functions *)

Lemma extract_web_results_spec (data : BraveWebResponse) :
  web data <> PyNone -> extract_web_results data = Ok (spec_web_results data).
Proof.
  unfold extract_web_results, spec_web_results. intros Hweb.
  destruct (web data) as [| |w]; [reflexivity | congruence |].
  destruct (w !! "results") as [entries|]; [|reflexivity].
  rewrite (fold_left_snoc
             (fun result => {| res_title := default EmptyString (title result);
                               res_description := default EmptyString (description result);
                               res_url := default EmptyString (url result) |})).
  reflexivity.
Qed.

Lemma format_web_results_spec (entries : list WebResult) :
  format_web_results entries = spec_format_web entries.
Proof.
  unfold format_web_results, spec_format_web. f_equal.
Qed.

Lemma omap_nil_iff {A B : Type} (f : A -> option B) (l : list A) :
  omap f l = [] <-> Forall (fun x => f x = None) l.
Proof.
  induction l as [|x l IH]; simpl.
  - split; [constructor | reflexivity].
  - destruct (f x) eqn:Hx; split.
    + discriminate.
    + intros H. apply Forall_cons_iff in H as [H _]. congruence.
    + intros H. constructor; [exact Hx | apply IH, H].
    + intros H. apply Forall_cons_iff in H as [_ H]. apply IH, H.
Qed.

Lemma truthy_id_none (result : gmap string string) :
  truthy_id result = None <->
  result !! "id" = None \/ result !! "id" = Some EmptyString.
Proof.
  unfold truthy_id. destruct (result !! "id") as [[|c s]|]; simpl; split;
    intros H; try reflexivity; try discriminate; auto.
  destruct H as [H|H]; discriminate.
Qed.

(** No id is extracted exactly when there is no list of results, or every
    result has no id or an empty one. *)
Lemma extract_location_ids_nil (web_data : BraveWebResponse) :
  extract_location_ids web_data = [] <->
  (forall locs entries,
      locations web_data = Present locs -> locs !! "results" = Some entries ->
      Forall (fun result : gmap string string =>
                result !! "id" = None \/ result !! "id" = Some EmptyString) entries).
Proof.
  unfold extract_location_ids.
  destruct (locations web_data) as [| |locs];
    try (split; [intros _ locs entries; discriminate | reflexivity]).
  destruct (dict_truthy locs) eqn:Htruthy.
  - destruct (locs !! "results") as [entries|] eqn:Hres.
    + destruct (list_truthy entries) eqn:Hent.
      * rewrite omap_nil_iff. split.
        -- intros H locs' entries' [= <-] Hres'. rewrite Hres in Hres'.
           injection Hres' as <-.
           eapply Forall_impl; [exact H|]. intros r. apply truthy_id_none.
        -- intros H. eapply Forall_impl; [exact (H locs entries eq_refl Hres)|].
           intros r. apply truthy_id_none.
      * destruct entries; [|discriminate]. split; [|reflexivity].
        intros _ locs' entries' [= <-] Hres'. rewrite Hres in Hres'.
        injection Hres' as <-. constructor.
    + split; [|reflexivity]. intros _ locs' entries' [= <-] Hres'. congruence.
  - apply dict_truthy_false in Htruthy. subst locs. split; [|reflexivity].
    intros _ locs' entries' [= <-] Hres'. rewrite lookup_empty in Hres'. discriminate.
Qed.

Section ServerFacts.

Variable float_repr : float -> string.
Variable env : Env.

Lemma rate_gate_sent (w : World) : sent (snd (rate_gate env w)) = sent w.
Proof.
  unfold rate_gate.
  destruct (RateGate.check_rate_limit _ _ _) as [r rc]. reflexivity.
Qed.

Lemma fetch_json_sent {A : Type} (endpoint : list Request -> outcome (Response A))
  (request : Request) (w : World) :
  sent (snd (fetch_json endpoint request w)) = sent w ++ [request].
Proof.
  unfold fetch_json, bind, client_get.
  destruct (endpoint (sent w ++ [request])) as [response|e]; [|reflexivity].
  destruct (negb (status_code response =? 200)); [reflexivity|].
  destruct (json response); reflexivity.
Qed.

(** [perform_web_search] sends its one request when the rate gate lets it. *)
Lemma perform_web_search_sent (query : string) (count offset : Z) (w : World) :
  sent (snd (perform_web_search env query count offset w)) =
  match fst (rate_gate env w) with
  | Ok _ => sent w ++ [web_search_request env query count offset]
  | Raise _ => sent w
  end.
Proof.
  unfold perform_web_search.
  pose proof (rate_gate_sent w) as Hgate.
  destruct (rate_gate env w) as [[u|e] w0] eqn:Hrun; simpl in Hgate |- *.
  - rewrite (bind_ok _ _ _ _ _ Hrun).
    pose proof (fetch_json_sent (get_web env)
                  (web_search_request env query count offset) w0) as Hfetch.
    unfold bind at 1.
    destruct (fetch_json _ _ w0) as [[data|e] w1]; simpl in Hfetch |- *.
    + destruct (extract_web_results data); simpl; congruence.
    + congruence.
  - rewrite (bind_raise _ _ _ _ _ Hrun). simpl. congruence.
Qed.

(** A rate check followed by one request only ever adds to the requests
    sent. *)
Lemma gated_fetch_sent {A : Type} (endpoint : list Request -> outcome (Response A))
  (request : Request) (w : World) :
  exists later,
    sent (snd ((_ <- rate_gate env ;; fetch_json endpoint request) w)) = sent w ++ later.
Proof.
  unfold bind at 1. pose proof (rate_gate_sent w) as Hgate.
  destruct (rate_gate env w) as [[u|e] w0]; simpl in Hgate.
  - exists [request]. rewrite fetch_json_sent. congruence.
  - exists []. simpl. rewrite app_nil_r. exact Hgate.
Qed.

Lemma gather_lookups_sent (ids : list string) (w : World) :
  exists later,
    sent (snd (gather (get_pois_data env ids) (get_descriptions_data env ids) w)) =
    sent w ++ later.
Proof.
  unfold gather, get_pois_data, get_descriptions_data.
  match goal with
  | |- context [ (bind (rate_gate env) (fun _ => fetch_json ?ep ?rq)) w ] =>
      destruct (gated_fetch_sent ep rq w) as [l1 H1];
      destruct ((bind (rate_gate env) (fun _ => fetch_json ep rq)) w) as [r1 w1]
  end.
  match goal with
  | |- context [ (bind (rate_gate env) (fun _ => fetch_json ?ep ?rq)) w1 ] =>
      destruct (gated_fetch_sent ep rq w1) as [l2 H2];
      destruct ((bind (rate_gate env) (fun _ => fetch_json ep rq)) w1) as [r2 w2]
  end.
  simpl in *. exists (l1 ++ l2). rewrite H2, H1, app_assoc. reflexivity.
Qed.

(** Once admitted by the rate gate, [perform_local_search] sends its first
    request before anything else. *)
Lemma perform_local_search_sent (query : string) (count : Z) (w w0 : World) (u : unit) :
  rate_gate env w = (Ok u, w0) ->
  exists later,
    sent (snd (perform_local_search float_repr env query count w)) =
    sent w ++ local_search_request env query count :: later.
Proof.
  intros Hgate. unfold perform_local_search. rewrite (bind_ok _ _ _ _ _ Hgate).
  pose proof (rate_gate_sent w) as Hsent0. rewrite Hgate in Hsent0. simpl in Hsent0.
  pose proof (fetch_json_sent (get_web env) (local_search_request env query count) w0)
    as Hsent1.
  unfold bind at 1.
  destruct (fetch_json _ _ w0) as [[web_data|e] w1]; simpl in Hsent1.
  - destruct (negb (list_truthy (extract_location_ids web_data))).
    + rewrite perform_web_search_sent, Hsent1, Hsent0.
      destruct (fst (rate_gate env w1)); eexists; rewrite <- ?app_assoc; reflexivity.
    + destruct (gather_lookups_sent (extract_location_ids web_data) w1) as [later Hg].
      unfold bind.
      destruct (gather _ _ w1) as [[[pois_data descriptions_data]|e] w2];
        simpl in Hg |- *; exists later;
        rewrite Hg, Hsent1, Hsent0, <- app_assoc; reflexivity.
  - exists []. simpl. congruence.
Qed.

(** On a response whose [web] key is absent or holds a dictionary,
    [perform_web_search] returns the entries of its [results] list, if any,
    with absent fields read as empty strings, as three labelled lines per
    entry and a blank line between entries. *)
Theorem perform_web_search_formats_results
  (query : string) (count offset : Z) (w w0 w1 : World) (data : BraveWebResponse) :
  rate_gate env w = (Ok tt, w0) ->
  fetch_json (get_web env) (web_search_request env query count offset) w0 = (Ok data, w1) ->
  web data <> PyNone ->
  perform_web_search env query count offset w =
  (Ok (spec_format_web (spec_web_results data)), w1).
Proof.
  intros Hgate Hfetch Hweb. unfold perform_web_search.
  rewrite (bind_ok _ _ _ _ _ Hgate), (bind_ok _ _ _ _ _ Hfetch).
  rewrite (extract_web_results_spec data Hweb), format_web_results_spec.
  reflexivity.
Qed.

(** C3. When the first response of a local search yields no location id,
    which is the case exactly when it has no list of location results or
    every result in it has no id or an empty one, the local search continues
    as, and so returns or raises exactly what, [perform_web_search] with the
    same query and count does from there; upstream it has sent its first
    request and at most the request of that web search, and no lookup by
    id. *)
Theorem local_search_falls_back_to_web_search
  (query : string) (count : Z) (w w0 w1 : World) (web_data : BraveWebResponse) :
  rate_gate env w = (Ok tt, w0) ->
  fetch_json (get_web env) (local_search_request env query count) w0 = (Ok web_data, w1) ->
  extract_location_ids web_data = [] ->
  perform_local_search float_repr env query count w =
    perform_web_search env query count 0 w1 /\
  (sent (snd (perform_local_search float_repr env query count w)) =
     sent w ++ [local_search_request env query count] \/
   sent (snd (perform_local_search float_repr env query count w)) =
     sent w ++ [local_search_request env query count; web_search_request env query count 0]) /\
  (extract_location_ids web_data = [] <->
   forall locs entries,
     locations web_data = Present locs -> locs !! "results" = Some entries ->
     Forall (fun result : gmap string string =>
               result !! "id" = None \/ result !! "id" = Some EmptyString) entries).
Proof.
  intros Hgate Hfetch Hids.
  assert (Hrun : perform_local_search float_repr env query count w =
                 perform_web_search env query count 0 w1).
  { unfold perform_local_search.
    rewrite (bind_ok _ _ _ _ _ Hgate), (bind_ok _ _ _ _ _ Hfetch).
    rewrite Hids. reflexivity. }
  split; [exact Hrun|]. split; [|apply extract_location_ids_nil].
  rewrite Hrun, perform_web_search_sent.
  pose proof (fetch_json_sent (get_web env) (local_search_request env query count) w0)
    as Hsent1.
  rewrite Hfetch in Hsent1. simpl in Hsent1.
  pose proof (rate_gate_sent w) as Hsent0. rewrite Hgate in Hsent0. simpl in Hsent0.
  rewrite Hsent1, Hsent0.
  destruct (fst (rate_gate env w1)); [right | left].
  - rewrite <- app_assoc. reflexivity.
  - reflexivity.
Qed.

Lemma try_except_fst_raise {A : Type} (m : M A) (handler : exn -> A) (w : World) (e : exn) :
  fst (m w) = Raise e -> fst (try_except m handler w) = Ok (handler e).
Proof. unfold try_except. destruct (m w) as [[a|e'] w']; simpl; congruence. Qed.

Lemma bind_fst_raise {A B : Type} (m : M A) (k : A -> M B) (w : World) (e : exn) :
  fst (m w) = Raise e -> fst (bind m k w) = Raise e.
Proof. unfold bind. destruct (m w) as [[a|e'] w']; simpl; congruence. Qed.

Lemma fetch_json_bad_status {A : Type} (endpoint : list Request -> outcome (Response A))
  (request : Request) (w : World) (response : Response A) :
  endpoint (sent w ++ [request]) = Ok response ->
  status_code response <> 200 ->
  fst (fetch_json endpoint request w) = Raise (ValueError (api_error_message response)).
Proof.
  intros Hget Hstatus. unfold fetch_json, bind, client_get. rewrite Hget.
  apply Z.eqb_neq in Hstatus. rewrite Hstatus. reflexivity.
Qed.

Lemma fetch_json_client_raise {A : Type} (endpoint : list Request -> outcome (Response A))
  (request : Request) (w : World) (e : exn) :
  endpoint (sent w ++ [request]) = Raise e ->
  fst (fetch_json endpoint request w) = Raise e.
Proof. intros Hget. unfold fetch_json, bind, client_get. rewrite Hget. reflexivity. Qed.

(** An exception of the first request comes out of the search unchanged. *)
Lemma perform_web_search_fetch_raise (query : string) (count offset : Z)
  (w w0 : World) (e : exn) :
  rate_gate env w = (Ok tt, w0) ->
  fst (fetch_json (get_web env) (web_search_request env query count offset) w0) = Raise e ->
  fst (perform_web_search env query count offset w) = Raise e.
Proof.
  intros Hgate Hfetch. unfold perform_web_search. rewrite (bind_ok _ _ _ _ _ Hgate).
  apply bind_fst_raise, Hfetch.
Qed.

Lemma perform_local_search_fetch_raise (query : string) (count : Z)
  (w w0 : World) (e : exn) :
  rate_gate env w = (Ok tt, w0) ->
  fst (fetch_json (get_web env) (local_search_request env query count) w0) = Raise e ->
  fst (perform_local_search float_repr env query count w) = Raise e.
Proof.
  intros Hgate Hfetch. unfold perform_local_search. rewrite (bind_ok _ _ _ _ _ Hgate).
  apply bind_fst_raise, Hfetch.
Qed.

Lemma brave_web_search_raise (query : string) (count offset : Z) (w : World) (e : exn) :
  fst (perform_web_search env query count offset w) = Raise e ->
  fst (brave_web_search env query count offset w) = Ok ("Error: " +:+ exn_str e).
Proof.
  apply (try_except_fst_raise (perform_web_search env query count offset)
           (fun e => "Error: " +:+ exn_str e)).
Qed.

Lemma brave_local_search_raise (query : string) (count : Z) (w : World) (e : exn) :
  fst (perform_local_search float_repr env query count w) = Raise e ->
  fst (brave_local_search float_repr env query count w) = Ok ("Error: " +:+ exn_str e).
Proof.
  apply (try_except_fst_raise (perform_local_search float_repr env query count)
           (fun e => "Error: " +:+ exn_str e)).
Qed.

(** C4. Neither tool ever raises.  Whatever exception the search behind a
    tool raises, the tool returns "Error: " followed by the message of that
    exception; in particular so for a rejected rate check, for an upstream
    answer with a status other than 200, and for a failure of the HTTP client
    itself. *)
Theorem tools_return_errors_as_text (query : string) (count offset : Z) (w : World) :
  (exists s, fst (brave_web_search env query count offset w) = Ok s) /\
  (exists s, fst (brave_local_search float_repr env query count w) = Ok s) /\
  (forall e w',
      perform_web_search env query count offset w = (Raise e, w') ->
      brave_web_search env query count offset w = (Ok ("Error: " +:+ exn_str e), w')) /\
  (forall e w',
      perform_local_search float_repr env query count w = (Raise e, w') ->
      brave_local_search float_repr env query count w =
      (Ok ("Error: " +:+ exn_str e), w')) /\
  (forall e,
      fst (rate_gate env w) = Raise e ->
      fst (brave_web_search env query count offset w) = Ok ("Error: " +:+ exn_str e) /\
      fst (brave_local_search float_repr env query count w) =
        Ok ("Error: " +:+ exn_str e)) /\
  (forall w0 response,
      rate_gate env w = (Ok tt, w0) ->
      status_code response <> 200 ->
      (get_web env (sent w0 ++ [web_search_request env query count offset]) = Ok response ->
       fst (brave_web_search env query count offset w) =
         Ok ("Error: " +:+ api_error_message response)) /\
      (get_web env (sent w0 ++ [local_search_request env query count]) = Ok response ->
       fst (brave_local_search float_repr env query count w) =
         Ok ("Error: " +:+ api_error_message response))) /\
  (forall w0 e,
      rate_gate env w = (Ok tt, w0) ->
      (get_web env (sent w0 ++ [web_search_request env query count offset]) = Raise e ->
       fst (brave_web_search env query count offset w) = Ok ("Error: " +:+ exn_str e)) /\
      (get_web env (sent w0 ++ [local_search_request env query count]) = Raise e ->
       fst (brave_local_search float_repr env query count w) =
         Ok ("Error: " +:+ exn_str e))).
Proof.
  split; [apply try_except_ok|]. split; [apply try_except_ok|].
  split; [intros e w' H; unfold brave_web_search, try_except; rewrite H; reflexivity|].
  split; [intros e w' H; unfold brave_local_search, try_except; rewrite H; reflexivity|].
  split; [|split].
  - intros e Hgate. split.
    + apply brave_web_search_raise. unfold perform_web_search.
      apply bind_fst_raise, Hgate.
    + apply brave_local_search_raise. unfold perform_local_search.
      apply bind_fst_raise, Hgate.
  - intros w0 response Hgate Hstatus. split; intros Hget.
    + apply (brave_web_search_raise _ _ _ _ (ValueError (api_error_message response))).
      eapply perform_web_search_fetch_raise; [exact Hgate|].
      apply fetch_json_bad_status; assumption.
    + apply (brave_local_search_raise _ _ _ (ValueError (api_error_message response))).
      eapply perform_local_search_fetch_raise; [exact Hgate|].
      apply fetch_json_bad_status; assumption.
  - intros w0 e Hgate. split; intros Hget.
    + apply brave_web_search_raise.
      eapply perform_web_search_fetch_raise; [exact Hgate|].
      apply fetch_json_client_raise, Hget.
    + apply brave_local_search_raise.
      eapply perform_local_search_fetch_raise; [exact Hgate|].
      apply fetch_json_client_raise, Hget.
Qed.

(** C5. A count above 20 is sent upstream as 20, by [perform_web_search] and
    by the first request of [perform_local_search], and the search runs as it
    does for a count of 20: the larger count raises nothing of its own. *)
Theorem count_above_20_is_sent_as_20 (query : string) (count offset : Z) :
  20 < count ->
  req_params (web_search_request env query count offset) =
    [("q", VStr query); ("count", VInt 20); ("offset", VInt offset)] /\
  req_params (local_search_request env query count) =
    [("q", VStr query); ("search_lang", VStr "en");
     ("result_filter", VStr "locations"); ("count", VInt 20)] /\
  (forall w,
      perform_web_search env query count offset w =
      perform_web_search env query 20 offset w) /\
  (forall w,
      perform_local_search float_repr env query count w =
      perform_local_search float_repr env query 20 w) /\
  (forall w u w0,
      rate_gate env w = (Ok u, w0) ->
      sent (snd (perform_web_search env query count offset w)) =
        sent w ++ [web_search_request env query 20 offset] /\
      exists later,
        sent (snd (perform_local_search float_repr env query count w)) =
        sent w ++ local_search_request env query 20 :: later).
Proof.
  intros Hcount.
  assert (Hweb : forall o, web_search_request env query count o =
                           web_search_request env query 20 o).
  { intros o. unfold web_search_request, web_search_params.
    rewrite (Z.min_r count 20) by lia. reflexivity. }
  assert (Hlocal : local_search_request env query count =
                   local_search_request env query 20).
  { unfold local_search_request, local_search_params.
    rewrite (Z.min_r count 20) by lia. reflexivity. }
  assert (Hsame : forall o w, perform_web_search env query count o w =
                              perform_web_search env query 20 o w).
  { intros o w. unfold perform_web_search. rewrite Hweb. reflexivity. }
  split; [rewrite Hweb; reflexivity|].
  split; [rewrite Hlocal; reflexivity|].
  split; [intros w; apply Hsame|].
  assert (Hsame_local : forall w, perform_local_search float_repr env query count w =
                                  perform_local_search float_repr env query 20 w).
  { intros w. unfold perform_local_search. rewrite Hlocal. unfold bind.
    destruct (rate_gate env w) as [[u|e] w0]; [|reflexivity].
    destruct (fetch_json _ _ w0) as [[web_data|e] w1]; [|reflexivity].
    destruct (negb (list_truthy (extract_location_ids web_data))); [|reflexivity].
    apply Hsame. }
  split; [exact Hsame_local|].
  intros w u w0 Hgate. split.
  - rewrite perform_web_search_sent, Hgate, Hweb. reflexivity.
  - rewrite <- Hlocal. apply (perform_local_search_sent query count w w0 u Hgate).
Qed.

End ServerFacts.

(** ** The code on the samples *)

(** C3 on the sample web response, which has no [locations] key. *)
Lemma local_search_falls_back_to_web_search_witness :
  perform_local_search sample_float_repr (sample_env SAMPLE_WEB_RESPONSE)
    "restaurants near me" 5 sample_world =
  perform_web_search (sample_env SAMPLE_WEB_RESPONSE) "restaurants near me" 5 0
    (snd (fetch_json (get_web (sample_env SAMPLE_WEB_RESPONSE))
            (local_search_request (sample_env SAMPLE_WEB_RESPONSE) "restaurants near me" 5)
            (snd (rate_gate (sample_env SAMPLE_WEB_RESPONSE) sample_world)))).
Proof.
  refine (proj1 (local_search_falls_back_to_web_search sample_float_repr
                   (sample_env SAMPLE_WEB_RESPONSE) "restaurants near me" 5 sample_world
                   (snd (rate_gate (sample_env SAMPLE_WEB_RESPONSE) sample_world))
                   _ SAMPLE_WEB_RESPONSE _ _ _)).
  - reflexivity.
  - reflexivity.
  - reflexivity.
Defined.

(** What the fallback returns on the sample: the clock has moved on by two
    seconds when the web search checks the rate, so it is admitted. *)
Example local_search_fallback_sample :
  fst (brave_local_search sample_float_repr (sample_env SAMPLE_WEB_RESPONSE)
         "restaurants near me" 5 sample_world) =
  Ok (str_join nl
        [ "Title: Sample Title 1";
          "Description: Sample Description 1";
          "URL: https://example.com/1";
          EmptyString;
          "Title: Sample Title 2";
          "Description: Sample Description 2";
          "URL: https://example.com/2" ]).
Proof. vm_compute. reflexivity. Qed.

(** The same call when the clock does not move between the two rate checks:
    the web search that the fallback runs is rejected by the rate gate, as a
    web search called at that point is. *)
Example local_search_fallback_rate_limited :
  fst (brave_local_search sample_float_repr
         {| BRAVE_API_KEY := "test_api_key";
            limits := RateGate.RATE_LIMIT;
            time_time := fun _ => 10%float;
            get_web := fun _ => Ok (ok_response SAMPLE_WEB_RESPONSE);
            get_pois := fun _ => Ok (ok_response SAMPLE_POIS_RESPONSE);
            get_descriptions := fun _ => Ok (ok_response SAMPLE_DESCRIPTIONS_RESPONSE) |}
         "restaurants near me" 5 sample_world) =
  Ok "Error: Rate limit exceeded".
Proof. vm_compute. reflexivity. Qed.

(** [test_rate_limit]: with the per-second count at its limit, a web search
    raises before anything is sent. *)
Example web_search_rate_limited :
  perform_web_search (sample_env SAMPLE_WEB_RESPONSE) "test query" 10 0
    {| request_count := {| RateGate.second := 1; RateGate.month := 0;
                           RateGate.last_reset := 9.5%float |};
       clock_reads := 0;
       sent := [] |} =
  (Raise (ValueError "Rate limit exceeded"),
   {| request_count := {| RateGate.second := 1; RateGate.month := 0;
                          RateGate.last_reset := 9.5%float |};
      clock_reads := 1;
      sent := [] |}).
Proof. reflexivity. Qed.

(** C5 on a count of 50. *)
Lemma count_above_20_is_sent_as_20_witness :
  req_params (web_search_request (sample_env SAMPLE_WEB_RESPONSE) "test query" 50 0) =
  [("q", VStr "test query"); ("count", VInt 20); ("offset", VInt 0)].
Proof.
  refine (proj1 (count_above_20_is_sent_as_20 sample_float_repr
                   (sample_env SAMPLE_WEB_RESPONSE) "test query" 50 0 _)).
  reflexivity.
Defined.

(** A web search on the sample web response. *)
Lemma perform_web_search_formats_results_witness :
  fst (perform_web_search (sample_env SAMPLE_WEB_RESPONSE) "test query" 10 0 sample_world) =
  Ok (spec_format_web (spec_web_results SAMPLE_WEB_RESPONSE)).
Proof.
  refine (f_equal fst
            (perform_web_search_formats_results (sample_env SAMPLE_WEB_RESPONSE)
               "test query" 10 0 sample_world
               (snd (rate_gate (sample_env SAMPLE_WEB_RESPONSE) sample_world))
               _ SAMPLE_WEB_RESPONSE _ _ _)).
  - reflexivity.
  - reflexivity.
  - discriminate.
Defined.

(** C8 fails on the code.  An upstream answer whose [web] key holds [None]
    is a [BraveWebResponse]; the specification reads it as a response without
    web results, to be rendered as the empty text, but [perform_web_search]
    raises a [TypeError] on it, which the tool reports as an error.  The
    extraction of [perform_local_search] does read a [None] under [locations]
    as no locations. *)
Theorem perform_web_search_raises_on_null_web :
  spec_format_web (spec_web_results null_web_response) = EmptyString /\
  fst (perform_web_search (sample_env null_web_response) "test query" 10 0 sample_world) =
    Raise (TypeError "argument of type 'NoneType' is not iterable") /\
  fst (brave_web_search (sample_env null_web_response) "test query" 10 0 sample_world) =
    Ok "Error: argument of type 'NoneType' is not iterable" /\
  extract_location_ids {| web := Missing; locations := PyNone |} = [].
Proof. repeat split. Qed.

(** ** Sequences of rate checks *)

Module RateGateRuns.
Import RateGate RateGateFacts.

(** One call, seen from both outcomes. *)
Lemma check_rate_limit_cases (lim : RateLimit) (now : float) (rc : RequestCount) :
  (over_limit lim (adjust_window now rc) = true /\
   check_rate_limit lim now rc =
     (Raise (ValueError "Rate limit exceeded"), adjust_window now rc)) \/
  (over_limit lim (adjust_window now rc) = false /\
   check_rate_limit lim now rc =
     (Ok tt, {| second := second (adjust_window now rc) + 1;
                month := month rc + 1;
                last_reset := last_reset (adjust_window now rc) |})).
Proof.
  unfold check_rate_limit.
  destruct (over_limit lim (adjust_window now rc)); [left | right]; split; try reflexivity.
  rewrite adjust_window_month. reflexivity.
Qed.

Lemma over_limit_false_lt (lim : RateLimit) (rc : RequestCount) :
  over_limit lim rc = false -> second rc < per_second lim /\ month rc < per_month lim.
Proof.
  intros H. destruct (Z_lt_le_dec (second rc) (per_second lim)) as [Hs|Hs];
    destruct (Z_lt_le_dec (month rc) (per_month lim)) as [Hm|Hm]; try (split; assumption);
    exfalso; apply not_true_iff_false in H; apply H, over_limit_spec; auto.
Qed.

Lemma run_calls_cons (lim : RateLimit) (now : float) (later : list float)
  (rc : RequestCount) :
  run_calls lim (now :: later) rc =
  (fst (check_rate_limit lim now rc)
     :: fst (run_calls lim later (snd (check_rate_limit lim now rc))),
   snd (run_calls lim later (snd (check_rate_limit lim now rc)))).
Proof.
  simpl. destruct (check_rate_limit lim now rc) as [r rc1]. simpl.
  destruct (run_calls lim later rc1) as [rs rc2]. reflexivity.
Qed.

Lemma admitted_cons (r : outcome unit) (rs : list (outcome unit)) :
  admitted (r :: rs) = ((if is_ok r then 1 else 0) + admitted rs)%nat.
Proof. unfold admitted. simpl. destruct (is_ok r); reflexivity. Qed.

(** The counts never leave the range between 0 and their limits, whatever
    the clock readings and however many calls are made. *)
Theorem counters_stay_within_limits (lim : RateLimit) (times : list float)
  (rc : RequestCount) :
  0 <= second rc <= per_second lim ->
  0 <= month rc <= per_month lim ->
  0 <= second (snd (run_calls lim times rc)) <= per_second lim /\
  0 <= month (snd (run_calls lim times rc)) <= per_month lim.
Proof.
  revert rc. induction times as [|now later IH]; intros rc Hs Hm; [simpl; auto|].
  rewrite run_calls_cons. cbn [snd]. apply IH.
  - destruct (check_rate_limit_cases lim now rc) as [[_ ->]|[Hfree ->]]; cbn [snd].
    + unfold adjust_window. destruct (window_elapsed now rc); simpl; lia.
    + apply over_limit_false_lt in Hfree as [Hlt _]. cbn [second].
      unfold adjust_window in *. destruct (window_elapsed now rc); simpl in *; lia.
  - destruct (check_rate_limit_cases lim now rc) as [[_ ->]|[Hfree ->]]; cbn [snd].
    + rewrite adjust_window_month. exact Hm.
    + apply over_limit_false_lt in Hfree as [_ Hlt]. rewrite adjust_window_month in Hlt.
      cbn [month]. lia.
Qed.

Lemma counters_stay_within_limits_witness :
  0 <= second (snd (run_calls RATE_LIMIT [0.5%float; 0.75%float; 3%float]
                      {| second := 0; month := 14999; last_reset := 0%float |})) <= 1 /\
  0 <= month (snd (run_calls RATE_LIMIT [0.5%float; 0.75%float; 3%float]
                     {| second := 0; month := 14999; last_reset := 0%float |})) <= 15000.
Proof.
  apply (counters_stay_within_limits RATE_LIMIT [0.5%float; 0.75%float; 3%float]
           {| second := 0; month := 14999; last_reset := 0%float |}); simpl; lia.
Defined.

(** The per-month count is the number of calls admitted so far: every
    admitted call adds one, a rejected call adds nothing, and no window
    restart ever resets it. *)
Theorem month_counts_admitted_calls (lim : RateLimit) (times : list float)
  (rc : RequestCount) :
  month (snd (run_calls lim times rc)) =
  month rc + Z.of_nat (admitted (fst (run_calls lim times rc))).
Proof.
  revert rc. induction times as [|now later IH]; intros rc; [unfold admitted; simpl; lia|].
  rewrite run_calls_cons. cbn [fst snd]. rewrite IH, admitted_cons.
  destruct (check_rate_limit_cases lim now rc) as [[_ ->]|[_ ->]]; cbn [fst snd is_ok month].
  - rewrite adjust_window_month. lia.
  - lia.
Qed.

(** Once the per-month count has reached its limit every later call is
    rejected, at whatever time it is made, and the count stays where it is. *)
Theorem exhausted_month_rejects_every_call (lim : RateLimit) (times : list float)
  (rc : RequestCount) :
  per_month lim <= month rc ->
  Forall (fun r => r = Raise (ValueError "Rate limit exceeded"))
         (fst (run_calls lim times rc)) /\
  month (snd (run_calls lim times rc)) = month rc.
Proof.
  revert rc. induction times as [|now later IH]; intros rc Hm; [simpl; auto|].
  rewrite run_calls_cons. cbn [fst snd].
  destruct (check_rate_limit_cases lim now rc) as [[_ Hstep]|[Hfree _]].
  - rewrite Hstep. cbn [fst snd].
    destruct (IH (adjust_window now rc)) as [Hall Hmonth].
    + rewrite adjust_window_month. exact Hm.
    + split; [constructor; [reflexivity | exact Hall]|].
      rewrite Hmonth. apply adjust_window_month.
  - apply over_limit_false_lt in Hfree as [_ Hlt]. rewrite adjust_window_month in Hlt. lia.
Qed.

Lemma exhausted_month_rejects_every_call_witness :
  Forall (fun r => r = Raise (ValueError "Rate limit exceeded"))
         (fst (run_calls RATE_LIMIT [1%float; 5%float; 3600%float]
                 {| second := 0; month := 15000; last_reset := 0%float |})) /\
  month (snd (run_calls RATE_LIMIT [1%float; 5%float; 3600%float]
                {| second := 0; month := 15000; last_reset := 0%float |})) = 15000.
Proof.
  apply (exhausted_month_rejects_every_call RATE_LIMIT [1%float; 5%float; 3600%float]
           {| second := 0; month := 15000; last_reset := 0%float |}).
  simpl. lia.
Defined.

Lemma run_calls_same_window (lim : RateLimit) (times : list float) :
  forall rc : RequestCount,
    0 <= second rc ->
    Forall (fun t => window_elapsed t rc = false) times ->
    second (snd (run_calls lim times rc)) =
      second rc + Z.of_nat (admitted (fst (run_calls lim times rc))) /\
    Z.of_nat (admitted (fst (run_calls lim times rc))) <=
      Z.max 0 (per_second lim - second rc).
Proof.
  induction times as [|now later IH]; intros rc Hs Hwin.
  - simpl. unfold admitted. simpl. lia.
  - apply Forall_cons_iff in Hwin as [Hnow Hwin].
    rewrite run_calls_cons. cbn [fst snd]. rewrite admitted_cons.
    destruct (check_rate_limit_cases lim now rc) as [[_ Hstep]|[Hfree Hstep]];
      rewrite Hstep; cbn [fst snd is_ok];
      rewrite (adjust_window_same now rc Hnow) in *.
    + destruct (IH rc Hs Hwin) as [Hsec Hle]. split; lia.
    + apply over_limit_false_lt in Hfree as [Hlt _].
      match goal with
      | |- context [run_calls lim later ?rc1] =>
          destruct (IH rc1) as [Hsec Hle]
      end.
      * simpl. lia.
      * eapply Forall_impl; [exact Hwin|]. intros t Ht. exact Ht.
      * cbn [second] in Hsec, Hle. split; lia.
Qed.

(** Of the calls that fall in the window that is open, no more are admitted
    than what is left of the per-second limit, however many are made. *)
Theorem at_most_limit_admitted_in_a_window (lim : RateLimit) (times : list float)
  (rc : RequestCount) :
  0 <= second rc ->
  Forall (fun t => window_elapsed t rc = false) times ->
  Z.of_nat (admitted (fst (run_calls lim times rc))) <= Z.max 0 (per_second lim - second rc).
Proof. intros Hs Hwin. apply (run_calls_same_window lim times rc Hs Hwin). Qed.

Lemma at_most_limit_admitted_in_a_window_witness :
  Z.of_nat (admitted (fst (run_calls RATE_LIMIT [0.25%float; 0.5%float; 0.75%float; 1%float]
                             {| second := 0; month := 0; last_reset := 0%float |}))) <=
  Z.max 0 (1 - 0).
Proof.
  apply (at_most_limit_admitted_in_a_window RATE_LIMIT
           [0.25%float; 0.5%float; 0.75%float; 1%float]
           {| second := 0; month := 0; last_reset := 0%float |}).
  - simpl. lia.
  - repeat constructor.
Defined.

End RateGateRuns.

(** ** What a search sends and spends *)

Lemma spends_nothing (w w' : World) :
  sent w' = sent w ->
  RateGate.month (request_count w') = RateGate.month (request_count w) ->
  spends w w' [].
Proof. intros Hs Hm. split; [rewrite app_nil_r; exact Hs | simpl; lia]. Qed.

Lemma spends_trans (w w1 w2 : World) (l1 l2 : list Request) :
  spends w w1 l1 -> spends w1 w2 l2 -> spends w w2 (l1 ++ l2).
Proof.
  intros [Hs1 Hm1] [Hs2 Hm2]. split.
  - rewrite Hs2, Hs1, app_assoc. reflexivity.
  - rewrite Hm2, Hm1, length_app, Nat2Z.inj_add. lia.
Qed.

Lemma ids_params_spec (ids : list string) :
  ids_params ids = map (fun id => ("ids", VStr id)) (List.filter str_truthy ids).
Proof. unfold ids_params. rewrite (fold_left_snoc (fun id => ("ids", VStr id))). reflexivity. Qed.

Lemma filter_all_true {A : Type} (f : A -> bool) (l : list A) :
  Forall (fun x => f x = true) l -> List.filter f l = l.
Proof.
  induction l as [|x l IH]; intros H; [reflexivity|].
  apply Forall_cons_iff in H as [Hx H]. simpl. rewrite Hx, (IH H). reflexivity.
Qed.

Lemma omap_truthy_id (entries : list (gmap string string)) :
  Forall (fun id => str_truthy id = true) (omap truthy_id entries).
Proof.
  induction entries as [|result entries IH]; simpl; [constructor|].
  destruct (truthy_id result) as [id|] eqn:Hid; [|exact IH].
  constructor; [|exact IH].
  unfold truthy_id in Hid. destruct (result !! "id") as [s|]; [|discriminate].
  destruct (str_truthy s) eqn:Hs; [|discriminate]. injection Hid as <-. exact Hs.
Qed.

Lemma extract_location_ids_truthy (web_data : BraveWebResponse) :
  Forall (fun id => str_truthy id = true) (extract_location_ids web_data).
Proof.
  unfold extract_location_ids.
  destruct (locations web_data) as [| |locs]; try constructor.
  destruct (dict_truthy locs); [|constructor].
  destruct (locs !! "results") as [entries|]; [|constructor].
  destruct (list_truthy entries); [apply omap_truthy_id | constructor].
Qed.

(** Every id that [perform_local_search] extracts is a non-empty string, so
    the filter of the lookups by id drops none of them: the lookup carries one
    [ids] parameter per extracted id, in the order of extraction.  In general
    the lookups drop the empty ids and keep the order of the others. *)
Theorem extracted_ids_are_all_looked_up (web_data : BraveWebResponse) (ids : list string) :
  Forall (fun id => id <> EmptyString) (extract_location_ids web_data) /\
  ids_params (extract_location_ids web_data) =
    map (fun id => ("ids", VStr id)) (extract_location_ids web_data) /\
  ids_params ids =
    map (fun id => ("ids", VStr id)) (List.filter (fun id => negb (String.eqb id EmptyString)) ids).
Proof.
  split; [|split].
  - eapply Forall_impl; [apply extract_location_ids_truthy|].
    intros id Hid ->. discriminate.
  - rewrite ids_params_spec, filter_all_true; [reflexivity|].
    apply extract_location_ids_truthy.
  - rewrite ids_params_spec. f_equal. apply List.filter_ext. intros [|c s]; reflexivity.
Qed.

Section ServerRuns.

Variable float_repr : float -> string.
Variable env : Env.

Lemma rate_gate_log (w : World) :
  sent (snd (rate_gate env w)) = sent w /\
  ((fst (rate_gate env w) = Raise (ValueError "Rate limit exceeded") /\
    RateGate.month (request_count (snd (rate_gate env w))) =
      RateGate.month (request_count w)) \/
   (fst (rate_gate env w) = Ok tt /\
    RateGate.month (request_count (snd (rate_gate env w))) =
      RateGate.month (request_count w) + 1)).
Proof.
  split; [apply rate_gate_sent|]. unfold rate_gate.
  destruct (RateGateRuns.check_rate_limit_cases (limits env)
              (time_time env (clock_reads w)) (request_count w)) as [[_ ->]|[_ ->]];
    [left | right]; simpl; split; try reflexivity.
  apply RateGateFacts.adjust_window_month.
Qed.

Lemma fetch_json_request_count {A : Type} (endpoint : list Request -> outcome (Response A))
  (request : Request) (w : World) :
  request_count (snd (fetch_json endpoint request w)) = request_count w.
Proof.
  unfold fetch_json, bind, client_get.
  destruct (endpoint (sent w ++ [request])) as [response|e]; [|reflexivity].
  destruct (negb (status_code response =? 200)); [reflexivity|].
  destruct (json response); reflexivity.
Qed.

(** A rate check followed by one request: the request is sent and one unit is
    spent when the check admits the call, and nothing happens otherwise. *)
Lemma gated_fetch_log {A : Type} (endpoint : list Request -> outcome (Response A))
  (request : Request) (w : World) :
  spends w (snd ((_ <- rate_gate env ;; fetch_json endpoint request) w))
    (if is_ok (fst (rate_gate env w)) then [request] else []).
Proof.
  destruct (rate_gate_log w) as [Hsent [[Hr Hm]|[Hr Hm]]]; unfold bind at 1;
    destruct (rate_gate env w) as [r w0]; simpl in *; subst r; simpl.
  - apply spends_nothing; assumption.
  - split.
    + rewrite fetch_json_sent, Hsent. reflexivity.
    + rewrite fetch_json_request_count, Hm. simpl. lia.
Qed.

Lemma perform_web_search_state (query : string) (count offset : Z) (w : World) :
  snd (perform_web_search env query count offset w) =
  snd ((_ <- rate_gate env ;;
        fetch_json (get_web env) (web_search_request env query count offset)) w).
Proof.
  unfold perform_web_search, bind.
  destruct (rate_gate env w) as [[u|e] w0]; [|reflexivity].
  destruct (fetch_json _ _ w0) as [[data|e] w1]; [|reflexivity].
  destruct (extract_web_results data); reflexivity.
Qed.


Lemma known_web_search_request (query : string) (count offset : Z) :
  known_request env (web_search_request env query count offset).
Proof. split; [reflexivity | left; reflexivity]. Qed.

Lemma known_local_search_request (query : string) (count : Z) :
  known_request env (local_search_request env query count).
Proof. split; [reflexivity | left; reflexivity]. Qed.

Lemma perform_web_search_log (query : string) (count : Z) (w : World) :
  exists later,
    spends w (snd (perform_web_search env query count 0 w)) later /\
    (length later <= 1)%nat /\
    Forall (known_request env) later.
Proof.
  eexists. split; [rewrite perform_web_search_state; apply gated_fetch_log|].
  destruct (is_ok (fst (rate_gate env w))); simpl; split; try lia;
    repeat constructor; apply known_web_search_request.
Qed.

(** The log of the two lookups by id that [gather] runs. *)
Lemma gather_lookups_log (ids : list string) (w : World) :
  exists later,
    spends w (snd (gather (get_pois_data env ids) (get_descriptions_data env ids) w)) later /\
    (length later <= 2)%nat /\
    Forall (known_request env) later.
Proof.
  unfold gather, get_pois_data, get_descriptions_data.
  match goal with
  | |- context [ (bind (rate_gate env) (fun _ => fetch_json ?ep ?rq)) w ] =>
      pose proof (gated_fetch_log ep rq w) as H1;
      assert (K1 : known_request env rq) by (split; [reflexivity | right; left; reflexivity]);
      destruct ((bind (rate_gate env) (fun _ => fetch_json ep rq)) w) as [r1 w1]
  end.
  match goal with
  | |- context [ (bind (rate_gate env) (fun _ => fetch_json ?ep ?rq)) w1 ] =>
      pose proof (gated_fetch_log ep rq w1) as H2;
      assert (K2 : known_request env rq) by (split; [reflexivity | right; right; reflexivity]);
      destruct ((bind (rate_gate env) (fun _ => fetch_json ep rq)) w1) as [r2 w2]
  end.
  simpl in H1, H2 |- *.
  eexists. split; [exact (spends_trans _ _ _ _ _ H1 H2)|].
  destruct (is_ok (fst (rate_gate env w))), (is_ok (fst (rate_gate env w1))); simpl;
    split; try lia; repeat constructor; assumption.
Qed.

Lemma perform_local_search_log (query : string) (count : Z) (w : World) :
  exists later,
    spends w (snd (perform_local_search float_repr env query count w)) later /\
    (length later <= 3)%nat /\
    Forall (known_request env) later /\
    (is_ok (fst (rate_gate env w)) = false -> later = []).
Proof.
  unfold perform_local_search.
  pose proof (gated_fetch_log (get_web env) (local_search_request env query count) w) as H0.
  unfold bind at 1 in H0. unfold bind at 1.
  destruct (rate_gate env w) as [[u|e] w0]; cbn [fst is_ok] in H0 |- *.
  - unfold bind at 1.
    destruct (fetch_json _ _ w0) as [[web_data|e] w1]; cbn [snd] in H0 |- *.
    + destruct (negb (list_truthy (extract_location_ids web_data))).
      * destruct (perform_web_search_log query count w1) as [l [Hl [Hlen Hk]]].
        exists ([local_search_request env query count] ++ l).
        split; [exact (spends_trans _ _ _ _ _ H0 Hl)|].
        split; [simpl; lia|]. split; [|discriminate].
        constructor; [apply known_local_search_request | exact Hk].
      * destruct (gather_lookups_log (extract_location_ids web_data) w1)
          as [l [Hl [Hlen Hk]]].
        exists ([local_search_request env query count] ++ l).
        unfold bind.
        destruct (gather _ _ w1) as [[[pois_data descriptions_data]|e] w2];
          cbn [snd] in Hl |- *;
          (split; [exact (spends_trans _ _ _ _ _ H0 Hl)|];
           split; [simpl; lia|]; split; [|discriminate];
           constructor; [apply known_local_search_request | exact Hk]).
    + exists [local_search_request env query count].
      split; [exact H0|]. split; [simpl; lia|]. split; [|discriminate].
      constructor; [apply known_local_search_request | constructor].
  - exists []. split; [exact H0|]. split; [simpl; lia|]. split; [constructor | reflexivity].
Qed.

Lemma try_except_state {A : Type} (m : M A) (handler : exn -> A) (w : World) :
  snd (try_except m handler w) = snd (m w).
Proof. unfold try_except. destruct (m w) as [[a|e] w']; reflexivity. Qed.

Lemma bind_ok_inv {A B : Type} (m : M A) (k : A -> M B) (w w' : World) (b : B) :
  bind m k w = (Ok b, w') -> exists a w0, m w = (Ok a, w0) /\ k a w0 = (Ok b, w').
Proof.
  unfold bind. destruct (m w) as [[a|e] w0]; [|discriminate]. intros H. eauto.
Qed.

(** A lookup by id that returned has passed the rate gate and has sent its
    request. *)
Lemma gated_fetch_ok_sent {A : Type} (endpoint : list Request -> outcome (Response A))
  (request : Request) (w w' : World) (data : A) :
  (_ <- rate_gate env ;; fetch_json endpoint request) w = (Ok data, w') ->
  sent w' = sent w ++ [request].
Proof.
  intros Hrun. pose proof (gated_fetch_log endpoint request w) as [Hsent _].
  rewrite Hrun in Hsent. cbn [snd] in Hsent.
  apply bind_ok_inv in Hrun as (u & w0 & Hgate & _).
  rewrite Hgate in Hsent. exact Hsent.
Qed.


(** Whatever a tool sends upstream goes to one of the three endpoints and
    carries the three headers with the configured token; nothing that was
    sent before is dropped or reordered. *)
Theorem tools_send_only_known_requests (query : string) (count offset : Z) (w : World) :
  (exists later,
      sent (snd (brave_web_search env query count offset w)) = sent w ++ later /\
      Forall (known_request env) later) /\
  (exists later,
      sent (snd (brave_local_search float_repr env query count w)) = sent w ++ later /\
      Forall (known_request env) later).
Proof.
  split.
  - unfold brave_web_search. rewrite try_except_state, perform_web_search_state.
    destruct (gated_fetch_log (get_web env)
                (web_search_request env query count offset) w) as [Hsent _].
    eexists. split; [exact Hsent|].
    destruct (is_ok _); repeat constructor; apply known_web_search_request.
  - unfold brave_local_search. rewrite try_except_state.
    destruct (perform_local_search_log query count w) as [later ([H1 _] & _ & H3 & _)].
    exists later. auto.
Qed.

(** When the first response yields at least one id and both lookups by id
    return, the local search returns [format_local_results] of the two
    answers, having sent three requests in this order: the location search,
    the POI lookup and the description lookup, both lookups carrying every
    extracted id. *)
Theorem local_search_formats_the_lookups
  (query : string) (count : Z) (w w0 w1 w2 w3 : World) (web_data : BraveWebResponse)
  (pois_data : BravePoiResponse) (descriptions_data : BraveDescription) :
  rate_gate env w = (Ok tt, w0) ->
  fetch_json (get_web env) (local_search_request env query count) w0 = (Ok web_data, w1) ->
  extract_location_ids web_data <> [] ->
  get_pois_data env (extract_location_ids web_data) w1 = (Ok pois_data, w2) ->
  get_descriptions_data env (extract_location_ids web_data) w2 = (Ok descriptions_data, w3) ->
  perform_local_search float_repr env query count w =
    (Ok (format_local_results float_repr pois_data descriptions_data), w3) /\
  sent w3 =
    sent w ++
    [ local_search_request env query count;
      lookup_request env "https://api.search.brave.com/res/v1/local/pois"
        (extract_location_ids web_data);
      lookup_request env "https://api.search.brave.com/res/v1/local/descriptions"
        (extract_location_ids web_data) ].
Proof.
  intros Hgate Hfetch Hids Hpois Hdesc. split.
  - unfold perform_local_search.
    rewrite (bind_ok _ _ _ _ _ Hgate), (bind_ok _ _ _ _ _ Hfetch).
    destruct (extract_location_ids web_data) as [|id ids] eqn:Hext; [congruence|].
    cbn [list_truthy negb]. unfold bind, gather. rewrite Hpois, Hdesc. reflexivity.
  - pose proof (rate_gate_sent env w) as Hs0. rewrite Hgate in Hs0. cbn [snd] in Hs0.
    pose proof (fetch_json_sent (get_web env) (local_search_request env query count) w0)
      as Hs1.
    rewrite Hfetch in Hs1. cbn [snd] in Hs1.
    unfold get_pois_data in Hpois. apply gated_fetch_ok_sent in Hpois.
    unfold get_descriptions_data in Hdesc. apply gated_fetch_ok_sent in Hdesc.
    rewrite Hdesc, Hpois, Hs1, Hs0, <- !app_assoc. simpl.
    unfold lookup_request. rewrite !ids_params_spec.
    rewrite (filter_all_true _ _ (extract_location_ids_truthy web_data)). reflexivity.
Qed.

Lemma rate_gate_admitted_second (w w0 : World) :
  rate_gate env w = (Ok tt, w0) ->
  0 <= RateGate.second (request_count w) ->
  1 <= RateGate.second (request_count w0).
Proof.
  unfold rate_gate. intros Hgate Hnonneg.
  destruct (RateGate.check_rate_limit _ _ _) as [r rc] eqn:Hstep.
  injection Hgate as -> <-. cbn [request_count].
  apply RateGateFacts.check_rate_limit_ok in Hstep as (Hs & _ & _).
  pose proof (RateGateFacts.adjust_window_second_nonneg
                (time_time env (clock_reads w)) (request_count w) Hnonneg).
  lia.
Qed.

Lemma rate_gate_rejects_in_window (w : World) :
  RateGate.per_second (limits env) <= RateGate.second (request_count w) ->
  RateGate.window_elapsed (time_time env (clock_reads w)) (request_count w) = false ->
  fst (rate_gate env w) = Raise (ValueError "Rate limit exceeded").
Proof.
  intros Hfull Hwindow. unfold rate_gate, RateGate.check_rate_limit.
  rewrite (RateGateFacts.adjust_window_same _ _ Hwindow).
  assert (Hover : RateGate.over_limit (limits env) (request_count w) = true).
  { apply RateGateFacts.over_limit_spec. left. exact Hfull. }
  rewrite Hover. reflexivity.
Qed.

(** With a per-second limit of at most 1, a local search whose first request
    was answered cannot finish unless the clock has moved out of the window
    by its second rate check: whether it falls back to a web search or looks
    the ids up, it raises "Rate limit exceeded". *)
Theorem local_search_needs_a_new_window
  (query : string) (count : Z) (w w0 w1 : World) (web_data : BraveWebResponse) :
  RateGate.per_second (limits env) <= 1 ->
  0 <= RateGate.second (request_count w) ->
  rate_gate env w = (Ok tt, w0) ->
  fetch_json (get_web env) (local_search_request env query count) w0 = (Ok web_data, w1) ->
  RateGate.window_elapsed (time_time env (clock_reads w1)) (request_count w1) = false ->
  fst (perform_local_search float_repr env query count w) =
    Raise (ValueError "Rate limit exceeded") /\
  fst (brave_local_search float_repr env query count w) =
    Ok "Error: Rate limit exceeded".
Proof.
  intros Hlimit Hnonneg Hgate Hfetch Hwindow.
  assert (Hreject : fst (rate_gate env w1) = Raise (ValueError "Rate limit exceeded")).
  { apply rate_gate_rejects_in_window; [|exact Hwindow].
    pose proof (fetch_json_request_count (get_web env)
                  (local_search_request env query count) w0) as Hrc.
    rewrite Hfetch in Hrc. cbn [snd] in Hrc. rewrite Hrc.
    pose proof (rate_gate_admitted_second w w0 Hgate Hnonneg). lia. }
  assert (Hraise : fst (perform_local_search float_repr env query count w) =
                   Raise (ValueError "Rate limit exceeded")).
  { unfold perform_local_search.
    rewrite (bind_ok _ _ _ _ _ Hgate), (bind_ok _ _ _ _ _ Hfetch).
    destruct (negb (list_truthy (extract_location_ids web_data))).
    - unfold perform_web_search. apply bind_fst_raise, Hreject.
    - apply bind_fst_raise. unfold gather.
      assert (Hpois : fst (get_pois_data env (extract_location_ids web_data) w1) =
                      Raise (ValueError "Rate limit exceeded")).
      { unfold get_pois_data. apply bind_fst_raise, Hreject. }
      destruct (get_pois_data env _ w1) as [r1 w2]. cbn [fst] in Hpois. subst r1.
      destruct (get_descriptions_data env _ w2) as [r2 w3]. reflexivity. }
  split; [exact Hraise|].
  apply (brave_local_search_raise float_repr env query count w
           (ValueError "Rate limit exceeded") Hraise).
Qed.

(** When a lookup by id fails, the local search fails with the error of a
    failed lookup: no text is returned for the part that was fetched. *)
Theorem failed_lookup_fails_the_local_search
  (query : string) (count : Z) (w w0 w1 : World) (web_data : BraveWebResponse) :
  rate_gate env w = (Ok tt, w0) ->
  fetch_json (get_web env) (local_search_request env query count) w0 = (Ok web_data, w1) ->
  extract_location_ids web_data <> [] ->
  is_ok (fst (get_pois_data env (extract_location_ids web_data) w1)) = false \/
  is_ok (fst (get_descriptions_data env (extract_location_ids web_data)
                (snd (get_pois_data env (extract_location_ids web_data) w1)))) = false ->
  exists e,
    fst (perform_local_search float_repr env query count w) = Raise e /\
    fst (brave_local_search float_repr env query count w) = Ok ("Error: " +:+ exn_str e) /\
    (fst (get_pois_data env (extract_location_ids web_data) w1) = Raise e \/
     fst (get_descriptions_data env (extract_location_ids web_data)
            (snd (get_pois_data env (extract_location_ids web_data) w1))) = Raise e).
Proof.
  intros Hgate Hfetch Hids Hfail.
  assert (H : exists e,
             fst (perform_local_search float_repr env query count w) = Raise e /\
             (fst (get_pois_data env (extract_location_ids web_data) w1) = Raise e \/
              fst (get_descriptions_data env (extract_location_ids web_data)
                     (snd (get_pois_data env (extract_location_ids web_data) w1))) =
              Raise e)).
  { unfold perform_local_search.
    rewrite (bind_ok _ _ _ _ _ Hgate), (bind_ok _ _ _ _ _ Hfetch).
    destruct (extract_location_ids web_data) as [|id ids]; [congruence|].
    cbn [list_truthy negb]. unfold bind, gather.
    destruct (get_pois_data env (id :: ids) w1) as [[p|e1] w2]; cbn [fst snd] in *.
    - destruct (get_descriptions_data env (id :: ids) w2) as [[d|e2] w3]; cbn [fst] in *.
      + destruct Hfail; discriminate.
      + exists e2. auto.
    - destruct (get_descriptions_data env (id :: ids) w2) as [r2 w3].
      exists e1. auto. }
  destruct H as (e & Hraise & Hwhich). exists e.
  split; [exact Hraise|]. split; [|exact Hwhich].
  apply (brave_local_search_raise float_repr env query count w e Hraise).
Qed.

End ServerRuns.

(** The sample local search of the tests, with the lookups run for real: the
    clock moves by two seconds between the three rate checks. *)
Lemma local_search_formats_the_lookups_witness :
  fst (perform_local_search sample_float_repr (sample_env SAMPLE_LOCAL_RESPONSE)
         "restaurants near me" 5 sample_world) =
  Ok (format_local_results sample_float_repr
        SAMPLE_POIS_RESPONSE SAMPLE_DESCRIPTIONS_RESPONSE).
Proof.
  refine (f_equal fst
            (proj1 (local_search_formats_the_lookups sample_float_repr
                      (sample_env SAMPLE_LOCAL_RESPONSE) "restaurants near me" 5
                      sample_world _ _ _ _ SAMPLE_LOCAL_RESPONSE
                      SAMPLE_POIS_RESPONSE SAMPLE_DESCRIPTIONS_RESPONSE _ _ _ _ _))).
  - reflexivity.
  - reflexivity.
  - vm_compute. discriminate.
  - reflexivity.
  - reflexivity.
Defined.

(** The same local search behind a clock that stands still. *)
Lemma local_search_needs_a_new_window_witness :
  fst (brave_local_search sample_float_repr (frozen_clock_env SAMPLE_LOCAL_RESPONSE)
         "restaurants near me" 5 sample_world) =
  Ok "Error: Rate limit exceeded".
Proof.
  refine (proj2 (local_search_needs_a_new_window sample_float_repr
                   (frozen_clock_env SAMPLE_LOCAL_RESPONSE) "restaurants near me" 5
                   sample_world _ _ SAMPLE_LOCAL_RESPONSE _ _ _ _ _)).
  - simpl. lia.
  - simpl. lia.
  - reflexivity.
  - reflexivity.
  - reflexivity.
Defined.

(** The same local search with the POI endpoint answering 500. *)
Lemma failed_lookup_fails_the_local_search_witness :
  exists e,
    fst (perform_local_search sample_float_repr failing_pois_env
           "restaurants near me" 5 sample_world) = Raise e /\
    fst (brave_local_search sample_float_repr failing_pois_env
           "restaurants near me" 5 sample_world) = Ok ("Error: " +:+ exn_str e).
Proof.
  destruct (failed_lookup_fails_the_local_search sample_float_repr failing_pois_env
              "restaurants near me" 5 sample_world
              (snd (rate_gate failing_pois_env sample_world))
              (snd (fetch_json (get_web failing_pois_env)
                      (local_search_request failing_pois_env "restaurants near me" 5)
                      (snd (rate_gate failing_pois_env sample_world))))
              SAMPLE_LOCAL_RESPONSE)
    as (e & H1 & H2 & _).
  - reflexivity.
  - reflexivity.
  - vm_compute. discriminate.
  - left. reflexivity.
  - exists e. split; assumption.
Defined.

(** ** More on the rendering of a POI *)

Lemma spec_description_lookup (desc_data : BraveDescription) (poi : BraveLocation) :
  spec_description desc_data poi =
  default "No description available"
          (descriptions desc_data ≫= fun d : gmap string string => d !! loc_id poi).
Proof.
  unfold spec_description. destruct (descriptions desc_data) as [d|]; [|reflexivity].
  simpl. destruct (d !! loc_id poi); reflexivity.
Qed.

Section Rendering.

Variable float_repr : float -> string.

Lemma format_poi_descriptions (d1 d2 : BraveDescription) (poi : BraveLocation) :
  (descriptions d1 ≫= fun d : gmap string string => d !! loc_id poi) =
  (descriptions d2 ≫= fun d : gmap string string => d !! loc_id poi) ->
  format_poi float_repr d1 poi = format_poi float_repr d2 poi.
Proof.
  intros H. rewrite !format_poi_spec. unfold spec_local_block.
  rewrite !spec_description_lookup, H. reflexivity.
Qed.

(** The output depends on the description map only through its entries at
    the ids of the POIs that are rendered: two maps that agree there give the
    same text, and a missing [descriptions] key is read as an empty map. *)
Theorem descriptions_matter_only_at_the_poi_ids
  (pois_data : BravePoiResponse) (d1 d2 : gmap string string) :
  (forall pois poi,
      results pois_data = Some pois -> In poi pois -> d1 !! loc_id poi = d2 !! loc_id poi) ->
  format_local_results float_repr pois_data {| descriptions := Some d1 |} =
    format_local_results float_repr pois_data {| descriptions := Some d2 |} /\
  format_local_results float_repr pois_data {| descriptions := None |} =
    format_local_results float_repr pois_data {| descriptions := Some ∅ |}.
Proof.
  intros Hagree. destruct pois_data as [[[|poi pois]|]]; try (split; reflexivity).
  rewrite !format_local_results_blocks. split.
  - f_equal. apply map_ext_in. intros p Hp.
    apply format_poi_descriptions. simpl. apply (Hagree (poi :: pois) p eq_refl Hp).
  - reflexivity.
Qed.

Lemma format_poi_present (desc_data : BraveDescription) (poi : BraveLocation) :
  renders_present_fields poi (format_poi float_repr desc_data poi).
Proof.
  rewrite format_poi_spec. unfold spec_local_block, renders_present_fields.
  exists (default "N/A" (name poi)), (spec_address poi),
         (py_str float_repr (get_or_na (phone poi))),
         (spec_rating_value float_repr poi +:+ " (" +:+
          str_int (spec_rating_count poi) +:+ " reviews)"),
         (py_str float_repr (get_or_na (priceRange poi))),
         (hours_of poi), (spec_description desc_data poi).
  split; [reflexivity|].
  repeat split.
  - intros s ->. reflexivity.
  - intros s ->. reflexivity.
  - intros s ->. reflexivity.
  - intros ->. reflexivity.
  - intros ->. reflexivity.
  - unfold spec_rating_value, spec_rating_count. intros ->. reflexivity.
  - unfold hours_of. intros [-> | ->]; reflexivity.
Qed.

(** Only an absent key gets "N/A" after Name, Phone and Price Range: a name,
    phone or price range that is present is shown as it is, an empty string
    as nothing, and a phone or price range that holds [None] as the text
    "None".  A rating that holds [None] is shown as "N/A (0 reviews)", and
    opening hours that hold [None] or an empty list as "N/A". *)
Theorem present_fields_render_as_they_are (desc_data : BraveDescription)
  (poi : BraveLocation) (pois : list BraveLocation) :
  exists blocks : list string,
    format_local_results float_repr {| results := Some (poi :: pois) |} desc_data =
    str_join (nl +:+ "---" +:+ nl) blocks /\
    Forall2 renders_present_fields (poi :: pois) blocks.
Proof.
  exists (map (format_poi float_repr desc_data) (poi :: pois)). split.
  - apply format_local_results_blocks.
  - apply Forall2_map_self. intros p. apply format_poi_present.
Qed.

End Rendering.

Lemma descriptions_matter_only_at_the_poi_ids_witness :
  format_local_results sample_float_repr SAMPLE_POIS_RESPONSE
    {| descriptions := Some {[ "loc1" := "A"; "loc2" := "B" ]} |} =
  format_local_results sample_float_repr SAMPLE_POIS_RESPONSE
    {| descriptions := Some {[ "loc1" := "A"; "loc2" := "B"; "loc3" := "C" ]} |}.
Proof.
  refine (proj1 (descriptions_matter_only_at_the_poi_ids sample_float_repr
                   SAMPLE_POIS_RESPONSE
                   {[ "loc1" := "A"; "loc2" := "B" ]}
                   {[ "loc1" := "A"; "loc2" := "B"; "loc3" := "C" ]} _)).
  intros pois poi [= <-] Hin. simpl in Hin.
  destruct Hin as [<-|[<-|[]]]; reflexivity.
Defined.

(** A POI whose phone and price range hold [None], rendered. *)
Example format_local_results_none_fields :
  format_local_results sample_float_repr
    {| results := Some [ {| loc_id := "loc9"; name := Some EmptyString; address := None;
                            phone := PyNone; rating := PyNone; openingHours := Present [];
                            priceRange := PyNone |} ] |}
    {| descriptions := Some ∅ |} =
  str_join nl
    [ "Name: "; "Address: N/A"; "Phone: None"; "Rating: N/A (0 reviews)";
      "Price Range: None"; "Hours: N/A"; "Description: No description available" ].
Proof. vm_compute. reflexivity. Qed.

(** ** Start-up *)

(** Loading the module fails, with a [ValueError] that names the variable,
    exactly when [BRAVE_API_KEY] is unset or empty.  Otherwise the token is
    the value of the variable, and the counters start so that the first rate
    check is admitted under the configured limits whenever it is made. *)
Theorem module_init_requires_the_token (environ : gmap string string) (now : float) :
  (module_init environ now =
     Raise (ValueError "Error: BRAVE_API_KEY environment variable is required") <->
   environ !! "BRAVE_API_KEY" = None \/ environ !! "BRAVE_API_KEY" = Some EmptyString) /\
  (forall key rc,
      module_init environ now = Ok (key, rc) ->
      environ !! "BRAVE_API_KEY" = Some key /\ key <> EmptyString /\
      forall later : float,
        fst (RateGate.check_rate_limit RateGate.RATE_LIMIT later rc) = Ok tt).
Proof.
  unfold module_init. split.
  - destruct (environ !! "BRAVE_API_KEY") as [[|c key]|]; simpl; split; intros H;
      try reflexivity; try discriminate; auto.
    destruct H as [H|H]; discriminate.
  - intros key rc.
    destruct (environ !! "BRAVE_API_KEY") as [[|c key0]|]; simpl; try discriminate.
    intros [= <- <-]. split; [reflexivity|]. split; [discriminate|].
    intros later. unfold RateGate.check_rate_limit, RateGate.adjust_window.
    destruct (RateGate.window_elapsed later _); reflexivity.
Qed.
